(** * provworkflow: ProvReporter and Workflow

    A shallow embedding of [provworkflow/prov_reporter.py] and
    [provworkflow/workflow.py].

    Python objects are records; rdflib graphs are mutable objects, so they
    live in a store of graphs and are passed around by reference; a method
    that can raise returns a [result]; side effects on the outside world
    (files written, HTTP requests sent) are appended to a trace. *)

From Stdlib Require Import String Ascii List ZArith Lia Bool.
From stdpp Require Import base list strings.
Import ListNotations.

Open Scope string_scope.
Open Scope list_scope.

(** ** rdflib terms and graphs *)

(** [rdflib.Literal]: a lexical form and an optional datatype IRI. *)
Record Literal := mkLiteral { lexical : string; datatype : option string }.

(** [rdflib.term]: only the two kinds of node the code builds. *)
Inductive Term :=
| URIRef (iri : string)
| Lit (l : Literal).

Definition Triple : Type := Term * Term * Term.

(** [rdflib.Graph] as the code uses it: the identifier given at creation,
    the prefixes bound with [g.bind], and the statements passed to [g.add],
    in call order.  Keeping the calls in a list lets a statement be counted
    (multiset reading) or merely looked up (set reading). *)
Record Graph := mkGraph {
  identifier : option string;
  namespaces : list (string * string);
  triples : list Triple
}.

#[global] Instance Literal_eq_dec : EqDecision Literal.
Proof. solve_decision. Defined.
#[global] Instance Term_eq_dec : EqDecision Term.
Proof. solve_decision. Defined.
#[global] Instance Graph_eq_dec : EqDecision Graph.
Proof. solve_decision. Defined.


(** ** Namespaces of [rdflib.namespace] *)

Definition PROV := "http://www.w3.org/ns/prov#".
Definition OWL := "http://www.w3.org/2002/07/owl#".
Definition DCTERMS := "http://purl.org/dc/terms/".
Definition RDF := "http://www.w3.org/1999/02/22-rdf-syntax-ns#".
Definition RDFS := "http://www.w3.org/2000/01/rdf-schema#".
Definition XSD := "http://www.w3.org/2001/XMLSchema#".

(** [NS.name] for a [rdflib.Namespace] [NS]. *)
Definition term_of (ns name : string) : Term := URIRef (ns +:+ name).

(** ** Exceptions and the store-passing monad *)

Inductive Exc :=
| ProvWorkflowException (msg : string)
| AttributeError (msg : string)
| UnboundLocalError (msg : string)
| Exception (msg : string).

Inductive result (A : Type) :=
| OK (a : A)
| Raise (e : Exc).
Arguments OK {A} a.
Arguments Raise {A} e.

(** A computation over a mutable state [S]: the state reached is returned
    also when an exception is raised, since Python does not undo the
    mutations made before the [raise]. *)
Definition M (S A : Type) : Type := S -> result A * S.

Definition ret {S A} (a : A) : M S A := fun s => (OK a, s).
Definition raise {S A} (e : Exc) : M S A := fun s => (Raise e, s).
Definition bind {S A B} (c : M S A) (k : A -> M S B) : M S B :=
  fun s => match c s with
           | (OK a, s') => k a s'
           | (Raise e, s') => (Raise e, s')
           end.

Declare Scope py_scope.
Delimit Scope py_scope with py.
Notation "x <- c ;; k" := (bind c (fun x => k))
  (at level 100, c at next level, right associativity) : py_scope.
Notation "c ;; k" := (bind c (fun _ => k))
  (at level 100, right associativity) : py_scope.
Open Scope py_scope.

(** Graph objects are allocated in a store and named by their index. *)
Abbreviation gref := nat (only parsing).
Abbreviation heap := (list Graph) (only parsing).

(** [Graph(identifier=...)]. *)
Definition new_Graph (ident : option string) : M heap gref :=
  fun h => (OK (length h), h ++ [mkGraph ident [] []]).

Definition graph_bind (pfx ns : string) (g : Graph) : Graph :=
  mkGraph (identifier g) (namespaces g ++ [(pfx, ns)]) (triples g).

Definition graph_add (t : Triple) (g : Graph) : Graph :=
  mkGraph (identifier g) (namespaces g) (triples g ++ [t]).

(** [g.bind(pfx, ns)] and [g.add(t)] on the object [r] refers to. *)
Definition g_bind (r : gref) (pfx ns : string) : M heap unit :=
  fun h => (OK tt, alter (graph_bind pfx ns) r h).

Definition g_add (r : gref) (t : Triple) : M heap unit :=
  fun h => (OK tt, alter (graph_add t) r h).

(** ** Arguments as Python passes them *)

(** A [Union[URIRef, str]] argument: a plain [str] or an [rdflib.URIRef]. *)
Inductive PyStr :=
| Str (s : string)
| Ref (s : string).

(** [str(x)]. *)
Definition str_of (x : PyStr) : string :=
  match x with Str s => s | Ref s => s end.

(** [URIRef(x) if type(x) == str else x]: either way a [URIRef] with the
    same characters. *)
Definition as_URIRef (x : PyStr) : string := str_of x.

(** A [Union[Literal, str]] argument. *)
Inductive PyLabel :=
| LabelStr (s : string)
| LabelLit (l : Literal).

(** [Literal(label) if type(label) == str else label]. *)
Definition as_Literal (x : PyLabel) : Literal :=
  match x with
  | LabelStr s => mkLiteral s None
  | LabelLit l => l
  end.

(** What a constructor call reads from outside the program:
    [uuid.uuid1()], [datetime.now()] already formatted, and
    [get_version_uri()]. *)
Record Env := mkEnv {
  uuid1 : string;
  now : string;
  version : option string
}.

(** ** ProvReporter *)

(** The instance attributes [__init__] assigns.  [class_uri] and
    [version_uri] are [None] when the attribute is not assigned; for the
    other optional fields [None] is Python's [None].  [class_name] is
    [self.__class__.__name__]. *)
Record ProvReporter := mkProvReporter {
  class_name : string;
  uri : string;
  label : option Literal;
  named_graph_uri : option string;
  class_uri : option string;
  version_uri : option string;
  created : Literal
}.

Definition known_classes : list string :=
  ["Entity"; "Activity"; "Agent"; "Workflow"; "Block"].

Definition msg_class_uri_set :=
  "If a ProvWorkflow-defined class is used without specialisation, class_uri must not be set".
Definition msg_class_uri_missing :=
  "A specialised Block must have a class_uri instance variable supplied".
Definition msg_class_uri_http :=
  "If supplied, a class_uri must start with http".

(** [s.startswith(p)]. *)
Definition startswith (p s : string) : bool := String.prefix p s.

Section Model.

(** The two namespaces of [provworkflow/namespace.py], a module this
    development takes as given. *)
Variable PROVWF : string.
Variable PWFS : string.

(** [ProvReporter.__init__].  The three class-specialisation checks are all
    inside [if class_uri is not None:], as in the source; [cu] is
    [self.class_uri] right after its assignment. *)
Definition ProvReporter_init (cls : string) (env : Env)
    (uri_arg : option PyStr) (label_arg : option PyLabel)
    (named_graph_uri_arg class_uri_arg : option PyStr) : result ProvReporter :=
  let self_uri :=
    match uri_arg with
    | Some u => as_URIRef u
    | None => PWFS +:+ uuid1 env
    end in
  let self_label := as_Literal <$> label_arg in
  let self_named_graph_uri := as_URIRef <$> named_graph_uri_arg in
  let finish (cu : option string) :=
    OK (mkProvReporter cls self_uri self_label self_named_graph_uri cu
          (version env) (mkLiteral (now env) (Some (XSD +:+ "dateTimeStamp")))) in
  match class_uri_arg with
  | Some c =>
      let cu : option string := Some (as_URIRef c) in
      if bool_decide (cls ∈ known_classes) && bool_decide (cu ≠ None) then
        Raise (ProvWorkflowException msg_class_uri_set)
      else if bool_decide (cls ∉ known_classes) && bool_decide (cu = None) then
        Raise (ProvWorkflowException msg_class_uri_missing)
      else if bool_decide (cu ≠ None)
              && negb (from_option (startswith "http") false cu) then
        Raise (ProvWorkflowException msg_class_uri_http)
      else finish cu
  | None => finish None
  end.

(** [ProvReporter.prov_to_graph]. *)
Definition ProvReporter_prov_to_graph (self : ProvReporter) (g : option gref)
    : M heap gref :=
  g <- match g with
       | None =>
           match named_graph_uri self with
           | Some n => new_Graph (Some n)
           | None => new_Graph None
           end
       | Some g => ret g
       end ;;
  g_bind g "prov" PROV ;;
  g_bind g "provwf" PROVWF ;;
  g_bind g "pwfs" PWFS ;;
  g_bind g "owl" OWL ;;
  g_bind g "dcterms" DCTERMS ;;
  g_add g (URIRef (uri self), term_of RDF "type", term_of PROVWF "ProvReporter") ;;
  g_add g (URIRef (uri self), term_of DCTERMS "created", Lit (created self)) ;;
  match label self with
  | Some l =>
      g_add g (URIRef (uri self), term_of RDFS "label",
               Lit (mkLiteral (lexical l) (Some (XSD +:+ "string"))))
  | None => ret tt
  end ;;
  ret g.

(** ** Workflow *)

Set Warnings "-register-all".

(** The objects whose [prov_to_graph] can be called: instances of
    [ProvReporter] (or of a subclass that inherits the method unchanged) and
    instances of [Workflow].  A [Workflow] carries its [blocks] attribute,
    which a caller may have reset to [None], and [attr_PROVWF], the value an
    attribute named [PROVWF] has on the instance if somebody bound one:
    [Workflow.prov_to_graph] reads [self.PROVWF], and neither class body nor
    any [__init__] binds it. *)
Inductive Reporter :=
| Plain (st : ProvReporter)
| Wf (st : ProvReporter) (attr_PROVWF : option string)
     (blocks : option (list Reporter)).

Definition state_of (r : Reporter) : ProvReporter :=
  match r with Plain st => st | Wf st _ _ => st end.

(** [x.named_graph_uri] for an object [x]. *)
Definition get_named_graph_uri (x : Reporter) : option string :=
  named_graph_uri (state_of x).

(** [Workflow.__init__]: only [uri] and [label] reach
    [ProvReporter.__init__]. *)
Definition Workflow_init (env : Env) (uri_arg : option PyStr)
    (label_arg : option PyLabel) (blocks_arg : option (list Reporter))
    : result Reporter :=
  match ProvReporter_init "Workflow" env uri_arg label_arg None None with
  | Raise e => Raise e
  | OK st =>
      let blocks := blocks_arg in
      let blocks := match blocks with None => Some [] | Some _ => blocks end in
      OK (Wf st None blocks)
  end.

Definition msg_no_block := "A Workflow must have at least one Block within it".

(** Reading [self.PROVWF]. *)
Definition getattr_PROVWF {S} (st : ProvReporter) (attr : option string)
    : M S string :=
  match attr with
  | Some ns => ret ns
  | None =>
      raise (AttributeError
               ("'" +:+ class_name st +:+ "' object has no attribute 'PROVWF'"))
  end.

(** The loop [for block in self.blocks:] of [Workflow.prov_to_graph], on
    graph object [g]; [call] is the method call [block.prov_to_graph(g)]. *)
Definition for_blocks (call : Reporter -> option gref -> M heap gref)
    (st : ProvReporter) (attr : option string) (g : gref)
    : list Reporter -> M heap unit :=
  fix loop (bs : list Reporter) : M heap unit :=
    match bs with
    | [] => ret tt
    | block :: bs' =>
        call block (Some g) ;;
        ns <- getattr_PROVWF st attr ;;
        g_add g (URIRef (uri st), term_of ns "hadBlock",
                 URIRef (uri (state_of block))) ;;
        loop bs'
    end.

(** [prov_to_graph] with its dynamic dispatch: the method of
    [ProvReporter] for a plain record, [Workflow.prov_to_graph] for a
    workflow, whose loop calls the method of each block on the same graph
    object. *)
Fixpoint prov_to_graph (self : Reporter) (g : option gref) {struct self}
    : M heap gref :=
  match self with
  | Plain st => ProvReporter_prov_to_graph st g
  | Wf st attr blocks =>
      match blocks with
      | None => raise (ProvWorkflowException msg_no_block)
      | Some bs =>
          if bool_decide (length bs < 1)
          then raise (ProvWorkflowException msg_no_block)
          else
            g <- ProvReporter_prov_to_graph st g ;;
            ns <- getattr_PROVWF st attr ;;
            g_add g (URIRef (uri st), term_of RDF "type", term_of ns "Workflow") ;;
            for_blocks prov_to_graph st attr g bs ;;
            ret g
      end
  end.

(** ** Persistence *)

(** [g.serialize] returns [str] or [bytes], depending on the rdflib at
    hand and on whether an [encoding] is given. *)
Inductive PyText :=
| TStr (s : string)
| TBytes (b : string).

Inductive Format := turtle | trig.

(** [requests.Response], the three attributes the code reads. *)
Record Response := mkResponse {
  status_code : Z;
  text : string;
  ok : bool
}.

(** What leaves the process, in the order it happens.  A file write and a
    POST carry the graph object they serialise and its content at that
    moment. *)
Inductive Event :=
| FileWrite (destination : string) (fmt : Format) (g : gref) (content : option Graph)
| HttpPost (url context : string) (g : gref) (data : PyText)
    (content_type : string) (auth : string * string)
| SopUpdate (target : option PyStr) (g : gref) (query : string).

Record World := mkWorld {
  graphs : heap;
  trace : list Event
}.

Definition on_heap {A} (c : M heap A) : M World A :=
  fun w => let (r, h) := c (graphs w) in (r, mkWorld h (trace w)).

Definition emit (e : Event) : M World unit :=
  fun w => (OK tt, mkWorld (graphs w) (trace w ++ [e])).

Definition read_graph (g : gref) : M World (option Graph) :=
  fun w => (OK (graphs w !! g), w).

(** [s.replace(old, '')], for a non-empty [old]: occurrences are found
    from the left and do not overlap.  [skip] counts the characters of the
    occurrence in progress that are still to be dropped. *)
Fixpoint remove_from (old : string) (skip : nat) (s : string) : string :=
  match s with
  | EmptyString => EmptyString
  | String c s' =>
      match skip with
      | S k => remove_from old k s'
      | O =>
          if String.prefix old s then remove_from old (String.length old - 1) s'
          else String c (remove_from old 0 s')
      end
  end.

Definition replace_with_empty (old s : string) : string := remove_from old 0 s.

(** [sep.join(l)]. *)
Fixpoint join (sep : string) (l : list string) : string :=
  match l with
  | [] => EmptyString
  | [x] => x
  | x :: l' => x +:+ sep +:+ join sep l'
  end.

(** [x.decode()]. *)
Definition decode {S} (x : PyText) : M S string :=
  match x with
  | TBytes b => ret b
  | TStr _ => raise (AttributeError "'str' object has no attribute 'decode'")
  end.

Definition known_methods : list string := ["graphdb"; "sop"; "file"; "string"].

Definition msg_unknown_method (method : string) : string :=
  "A persistent method you selected, " +:+ method +:+
  ", is not in the list of known methods, '" +:+ join "', '" known_methods +:+ "'".

Definition msg_no_graph :=
  "When called as a class method, i.e. ProvReporter.persist(...), you must supply a non-null Graph g".

(** The collaborators of the persistence layer: rdflib's serialiser, the
    process environment, [requests.post], and the two functions of
    [provworkflow/utils.py] that [_persist_to_sop] calls. *)
Variable serialize : Format -> option string -> option Graph -> PyText.
Variable environ : string -> option string.
Variable requests_post :
  string -> string -> PyText -> string -> string * string -> result Response.
Variable make_sparql_insert_data : option PyStr -> option Graph -> string.
Variable query_sop_sparql : option PyStr -> string -> bool -> result Response.

(** [os.environ.get(key, dflt)]. *)
Definition environ_get (key dflt : string) : string := default dflt (environ key).

(** [ProvReporter._persist_to_file]. *)
Definition _persist_to_file (g : gref) (rdf_file_path : string)
    (named_graph_uri : option PyStr) : M World unit :=
  let rdf_file_path := replace_with_empty ".ttl" rdf_file_path in
  let rdf_file_path := replace_with_empty ".trig" rdf_file_path in
  content <- read_graph g ;;
  match named_graph_uri with
  | None => emit (FileWrite (rdf_file_path +:+ ".ttl") turtle g content)
  | Some _ => emit (FileWrite (rdf_file_path +:+ ".trig") trig g content)
  end.

(** [named_graph_uri != "null"]: a [URIRef] never equals a plain [str]. *)
Definition differs_from_null (named_graph_uri : option PyStr) : bool :=
  match named_graph_uri with
  | Some (Str s) => negb (String.eqb s "null")
  | _ => true
  end.

(** [ProvReporter._persist_to_graphdb].  [context] is assigned only under
    [if named_graph_uri != "null":]. *)
Definition _persist_to_graphdb (g : gref) (named_graph_uri : option PyStr)
    : M World unit :=
  let GRAPH_DB_SYSTEM_URI := environ_get "GRAPH_DB_SYSTEM_URI" "http://localhost:7200" in
  let GRAPH_DB_REPO_ID := environ_get "GRAPH_DB_REPO_ID" "provwftesting" in
  let GRAPHDB_USR := environ_get "GRAPHDB_USR" EmptyString in
  let GRAPHDB_PWD := environ_get "GRAPHDB_PWD" EmptyString in
  content <- read_graph g ;;
  let data := serialize turtle (Some "utf-8") content in
  let context : option string :=
    if differs_from_null named_graph_uri then
      match named_graph_uri with
      | None => Some "null"
      | Some n => Some ("<" +:+ str_of n +:+ ">")
      end
    else None in
  match context with
  | None =>
      raise (UnboundLocalError "local variable 'context' referenced before assignment")
  | Some context =>
      let url := GRAPH_DB_SYSTEM_URI +:+ "/repositories/" +:+ GRAPH_DB_REPO_ID
                 +:+ "/statements" in
      emit (HttpPost url context g data "text/turtle" (GRAPHDB_USR, GRAPHDB_PWD)) ;;
      match requests_post url context data "text/turtle" (GRAPHDB_USR, GRAPHDB_PWD) with
      | Raise e => raise e
      | OK r =>
          if bool_decide (status_code r ≠ 204%Z)
          then raise (Exception ("GraphDB says: " +:+ text r))
          else ret tt
      end
  end.

(** [ProvReporter._persist_to_sop]. *)
Definition _persist_to_sop (g : gref) (named_graph_uri : option PyStr)
    : M World unit :=
  content <- read_graph g ;;
  let query := make_sparql_insert_data named_graph_uri content in
  emit (SopUpdate named_graph_uri g query) ;;
  match query_sop_sparql named_graph_uri query true with
  | Raise e => raise e
  | OK r =>
      if negb (ok r) then raise (Exception ("SOP HTTP error: " +:+ text r))
      else ret tt
  end.

(** How [persist] is reached: [ProvReporter.persist(...)] on the class, or
    [x.persist(...)] on an instance. *)
Inductive Receiver :=
| OnClass
| OnInstance (self : Reporter).

(** The [methods] argument: absent, one name, or a list of names. *)
Inductive MethodsArg :=
| MethodsNone
| MethodsStr (s : string)
| MethodsList (l : list string).

Definition normalise_methods (methods : MethodsArg) : list string :=
  match methods with
  | MethodsStr s => [s]
  | MethodsNone => ["string"]
  | MethodsList l => l
  end.

(** The loop that checks every selected name. *)
Fixpoint check_methods {S} (methods : list string) : M S unit :=
  match methods with
  | [] => ret tt
  | method :: rest =>
      if bool_decide (method ∉ known_methods)
      then raise (ProvWorkflowException (msg_unknown_method method))
      else check_methods rest
  end.

Definition when {S} (b : bool) (c : M S unit) : M S unit :=
  if b then c else ret tt.

(** [ProvReporter.persist]. *)
Definition persist (cls_or_self : Receiver) (g : option gref)
    (methods : MethodsArg) (rdf_file_path : string)
    (named_graph_uri : option PyStr) : M World (option string) :=
  let methods := normalise_methods methods in
  check_methods methods ;;
  gn <- match cls_or_self with
        | OnInstance self =>
            g <- on_heap (prov_to_graph self None) ;;
            match get_named_graph_uri self with
            | Some n => ret (g, Some (Ref n))
            | None => ret (g, named_graph_uri)
            end
        | OnClass =>
            match g with
            | None => raise (ProvWorkflowException msg_no_graph)
            | Some g => ret (g, named_graph_uri)
            end
        end ;;
  let g := fst gn in
  let named_graph_uri := snd gn in
  when (bool_decide ("file" ∈ methods))
    (_persist_to_file g rdf_file_path named_graph_uri) ;;
  when (bool_decide ("graphdb" ∈ methods))
    (_persist_to_graphdb g named_graph_uri) ;;
  when (bool_decide ("sop" ∈ methods))
    (_persist_to_sop g named_graph_uri) ;;
  if bool_decide ("string" ∈ methods) then
    content <- read_graph g ;;
    x <- match named_graph_uri with
         | None => ret (serialize turtle None content)
         | Some _ =>
             s <- decode (serialize trig None content) ;;
             ret (TStr s)
         end ;;
    match x with
    | TStr s => ret (Some s)
    | TBytes _ => s <- decode x ;; ret (Some s)
    end
  else ret None.

(** ** Vocabulary of the statements below *)

(** The prefixes [ProvReporter.prov_to_graph] binds, in call order. *)
Definition own_bindings : list (string * string) :=
  [("prov", PROV); ("provwf", PROVWF); ("pwfs", PWFS); ("owl", OWL);
   ("dcterms", DCTERMS)].

(** The statements [ProvReporter.prov_to_graph] adds for a record, in call
    order: its own triples. *)
Definition own_triples (st : ProvReporter) : list Triple :=
  [(URIRef (uri st), term_of RDF "type", term_of PROVWF "ProvReporter");
   (URIRef (uri st), term_of DCTERMS "created", Lit (created st))]
  ++ match label st with
     | Some l => [(URIRef (uri st), term_of RDFS "label",
                   Lit (mkLiteral (lexical l) (Some (XSD +:+ "string"))))]
     | None => []
     end.

(** A graph after one more run of [ProvReporter.prov_to_graph]. *)
Definition extended (st : ProvReporter) (G : Graph) : Graph :=
  mkGraph (identifier G) (namespaces G ++ own_bindings)
          (triples G ++ own_triples st).

(** The part of [persist] that follows the resolution of the graph and of
    the named-graph target: the four backends in their fixed order. *)
Definition dispatch (g : gref) (named_graph_uri : option PyStr)
    (methods : list string) (rdf_file_path : string) : M World (option string) :=
  when (bool_decide ("file" ∈ methods))
    (_persist_to_file g rdf_file_path named_graph_uri) ;;
  when (bool_decide ("graphdb" ∈ methods))
    (_persist_to_graphdb g named_graph_uri) ;;
  when (bool_decide ("sop" ∈ methods))
    (_persist_to_sop g named_graph_uri) ;;
  if bool_decide ("string" ∈ methods) then
    content <- read_graph g ;;
    x <- match named_graph_uri with
         | None => ret (serialize turtle None content)
         | Some _ =>
             s <- decode (serialize trig None content) ;;
             ret (TStr s)
         end ;;
    match x with
    | TStr s => ret (Some s)
    | TBytes _ => s <- decode x ;; ret (Some s)
    end
  else ret None.

(** The target the backends receive in instance mode. *)
Definition instance_target (self : Reporter) (named_graph_uri : option PyStr)
    : option PyStr :=
  match get_named_graph_uri self with
  | Some n => Some (Ref n)
  | None => named_graph_uri
  end.

(** The serialisation format that goes with a target. *)
Definition format_for (named_graph_uri : option PyStr) : Format :=
  match named_graph_uri with None => turtle | Some _ => trig end.

(** The characters of a serialisation, whichever type carries them. *)
Definition text_of (x : PyText) : string :=
  match x with TStr s => s | TBytes b => b end.

(** Event [e] persists graph object [g], whose content is [c], under
    target [n]. *)
Definition about (g : gref) (c : option Graph) (n : option PyStr) (e : Event)
    : Prop :=
  match e with
  | FileWrite _ fmt g' c' => g' = g /\ c' = c /\ fmt = format_for n
  | HttpPost _ context g' data _ _ =>
      g' = g /\ data = serialize turtle (Some "utf-8") c /\
      context = match n with None => "null" | Some x => "<" +:+ str_of x +:+ ">" end
  | SopUpdate n' g' query =>
      g' = g /\ n' = n /\ query = make_sparql_insert_data n c
  end.

(** [w'] is [w] with events appended that all persist graph [g] under
    target [n]; the graphs themselves are untouched. *)
Definition persisted (g : gref) (n : option PyStr) (w w' : World) : Prop :=
  graphs w' = graphs w /\
  exists evs, trace w' = trace w ++ evs
              /\ Forall (about g (graphs w !! g) n) evs.

(** A computation all of whose runs are [persisted] steps. *)
Definition persists {A} (g : gref) (n : option PyStr) (c : M World A) : Prop :=
  forall w r w', c w = (r, w') -> persisted g n w w'.

(** What [persist] returns once the backends have run. *)
Definition returned (g : gref) (n : option PyStr) (methods : list string)
    (w : World) : option string :=
  if bool_decide ("string" ∈ methods)
  then Some (text_of (serialize (format_for n) None (graphs w !! g)))
  else None.

(** What one run of [prov_to_graph] does to the graph it is given: the
    prefixes it binds and the statements it adds, in call order, and the
    exception that ends the run, if any. *)
Record Emission := mkEmission {
  bound : list (string * string);
  stated : list Triple;
  raised : option Exc
}.

(** [e1] followed by [e2], unless [e1] ends in an exception. *)
Definition then_emit (e1 e2 : Emission) : Emission :=
  match raised e1 with
  | Some _ => e1
  | None => mkEmission (bound e1 ++ bound e2) (stated e1 ++ stated e2) (raised e2)
  end.

Definition hadBlock_triple (ns : string) (st : ProvReporter) (block : Reporter)
    : Triple :=
  (URIRef (uri st), term_of ns "hadBlock", URIRef (uri (state_of block))).

(** The run of the loop over the blocks; [run] is the run of one block. *)
Definition blocks_emission (run : Reporter -> Emission) (ns : string)
    (st : ProvReporter) : list Reporter -> Emission :=
  fix loop (bs : list Reporter) : Emission :=
    match bs with
    | [] => mkEmission [] [] None
    | block :: bs' =>
        then_emit (run block)
          (then_emit (mkEmission [] [hadBlock_triple ns st block] None)
                     (loop bs'))
    end.

(** The run of [prov_to_graph], read off the two methods. *)
Fixpoint emission (self : Reporter) : Emission :=
  match self with
  | Plain st => mkEmission own_bindings (own_triples st) None
  | Wf st attr blocks =>
      match blocks with
      | None => mkEmission [] [] (Some (ProvWorkflowException msg_no_block))
      | Some bs =>
          if bool_decide (length bs < 1)
          then mkEmission [] [] (Some (ProvWorkflowException msg_no_block))
          else
            match attr with
            | None =>
                mkEmission own_bindings (own_triples st)
                  (Some (AttributeError
                           ("'" +:+ class_name st
                            +:+ "' object has no attribute 'PROVWF'")))
            | Some ns =>
                then_emit
                  (mkEmission own_bindings
                     (own_triples st
                      ++ [(URIRef (uri st), term_of RDF "type", term_of ns "Workflow")])
                     None)
                  (blocks_emission emission ns st bs)
            end
      end
  end.

(** A graph after the run [e]. *)
Definition after (e : Emission) (G : Graph) : Graph :=
  mkGraph (identifier G) (namespaces G ++ bound e) (triples G ++ stated e).

(** The outcome of the run [e] on graph object [g]. *)
Definition outcome (e : Emission) (g : gref) : result gref :=
  match raised e with
  | None => OK g
  | Some x => Raise x
  end.

(** Induction on records that reaches the blocks of a workflow. *)
Section Reporter_induction.
Variable P : Reporter -> Prop.
Hypothesis P_Plain : forall st, P (Plain st).
Hypothesis P_Wf :
  forall st attr blocks,
    from_option (Forall P) True blocks -> P (Wf st attr blocks).

Fixpoint Reporter_nested_ind (self : Reporter) : P self :=
  match self with
  | Plain st => P_Plain st
  | Wf st attr blocks =>
      P_Wf st attr blocks
        (match blocks return from_option (Forall P) True blocks with
         | None => I
         | Some bs =>
             (fix all (bs : list Reporter) : Forall P bs :=
                match bs with
                | [] => @List.Forall_nil _ P
                | b :: bs' =>
                    @List.Forall_cons _ P b bs' (Reporter_nested_ind b) (all bs')
                end) bs
         end)
  end.
End Reporter_induction.

(** [old in s]: the string [old] occurs somewhere in [s]. *)
Fixpoint contains (old s : string) : bool :=
  String.prefix old s
  || match s with
     | EmptyString => false
     | String _ s' => contains old s'
     end.

(** The extension the file backend appends for a target. *)
Definition extension_for (named_graph_uri : option PyStr) : string :=
  match named_graph_uri with None => ".ttl" | Some _ => ".trig" end.

(** The address, the credentials and the [context] parameter of the
    request to GraphDB, as [_persist_to_graphdb] computes them. *)
Definition graphdb_url : string :=
  environ_get "GRAPH_DB_SYSTEM_URI" "http://localhost:7200" +:+ "/repositories/"
  +:+ environ_get "GRAPH_DB_REPO_ID" "provwftesting" +:+ "/statements".

Definition graphdb_auth : string * string :=
  (environ_get "GRAPHDB_USR" EmptyString, environ_get "GRAPHDB_PWD" EmptyString).

Definition graphdb_context (named_graph_uri : option PyStr) : string :=
  match named_graph_uri with
  | None => "null"
  | Some x => "<" +:+ str_of x +:+ ">"
  end.

(** ** Concrete values used in the examples *)

Definition ex_PROVWF := "https://data.surroundaustralia.com/def/provworkflow/".
Definition ex_PWFS := "https://data.surroundaustralia.com/dataset/provworkflows/".
Definition ex_env := mkEnv "6fa459ea-ee8a-11ee-a951-0242ac120002"
                           "2021-03-04T10:15:00+1000" None.
Definition ex_created := mkLiteral "2021-03-04T10:15:00+1000"
                                   (Some (XSD +:+ "dateTimeStamp")).
Definition ex_block (name : string) : Reporter :=
  Plain (mkProvReporter "Block" ("http://example.com/block/" +:+ name)
           (Some (mkLiteral name None)) None None None ex_created).
Definition ex_record : ProvReporter :=
  mkProvReporter "Block" "http://example.com/block/r" (Some (mkLiteral "r" None))
                 (Some "http://example.com/graph/record") None None ex_created.
Definition ex_graph : Graph := mkGraph None [] [].
Definition ex_world : World := mkWorld [ex_graph] [].
Definition ex_serialize (f : Format) (enc : option string) (c : option Graph)
    : PyText :=
  match enc with
  | Some _ => TBytes (match f with turtle => "turtle" | trig => "trig" end)
  | None => TStr (match f with turtle => "turtle" | trig => "trig" end)
  end.
Definition ex_environ (key : string) : option string := None.
Definition ex_requests_post (url context : string) (data : PyText)
    (content_type : string) (auth : string * string) : result Response :=
  OK (mkResponse 204 EmptyString true).
Definition ex_make_sparql_insert_data (n : option PyStr) (c : option Graph)
    : string := "INSERT DATA {}".
Definition ex_query_sop_sparql (n : option PyStr) (q : string) (update : bool)
    : result Response := OK (mkResponse 200 EmptyString true).

Definition ex_env' := mkEnv "7c2b1d0e-ee8a-11ee-a951-0242ac120002"
                            "2021-03-04T10:15:01+1000" None.
Definition ex_workflow_state : ProvReporter :=
  mkProvReporter "Workflow" "http://example.com/wf" None None None None
                 ex_created.
Definition ex_requests_post_500 (url context : string) (data : PyText)
    (content_type : string) (auth : string * string) : result Response :=
  OK (mkResponse 500 "repository is read-only" false).

(** * Properties *)

(** ** Construction *)

Lemma init_without_class_uri cls env u l n :
  ProvReporter_init cls env u l n None
  = OK (mkProvReporter cls
          (match u with Some u => as_URIRef u | None => PWFS +:+ uuid1 env end)
          (as_Literal <$> l) (as_URIRef <$> n) None (version env)
          (mkLiteral (now env) (Some (XSD +:+ "dateTimeStamp")))).
Proof. reflexivity. Qed.

(** A built-in kind given a [class_uri] is refused. *)
Lemma init_builtin_with_class_uri cls env u l n c :
  cls ∈ known_classes ->
  ProvReporter_init cls env u l n (Some c)
  = Raise (ProvWorkflowException msg_class_uri_set).
Proof.
  intros Hin. unfold ProvReporter_init.
  rewrite (bool_decide_eq_true_2 _ Hin). reflexivity.
Qed.

(** A specialisation whose [class_uri] does not start with [http] is
    refused. *)
Lemma init_specialised_bad_prefix cls env u l n c :
  cls ∉ known_classes -> startswith "http" (str_of c) = false ->
  ProvReporter_init cls env u l n (Some c)
  = Raise (ProvWorkflowException msg_class_uri_http).
Proof.
  intros Hin Hpre. unfold ProvReporter_init.
  rewrite (bool_decide_eq_false_2 _ Hin). cbn.
  rewrite andb_false_r. unfold as_URIRef. rewrite Hpre. reflexivity.
Qed.

(** A specialisation with an [http] [class_uri] is built, and carries it. *)
Lemma init_specialised_http cls env u l n c :
  cls ∉ known_classes -> startswith "http" (str_of c) = true ->
  exists st, ProvReporter_init cls env u l n (Some c) = OK st
             /\ class_uri st = Some (str_of c).
Proof.
  intros Hin Hpre. unfold ProvReporter_init.
  rewrite (bool_decide_eq_false_2 _ Hin). cbn.
  rewrite andb_false_r. unfold as_URIRef. rewrite Hpre. cbn. eauto.
Qed.

(** C1, as the code behaves: a class outside the five built-in kinds,
    constructed without a [class_uri], is accepted: no exception is raised
    and the record has no [class_uri].  The check with the message "A
    specialised Block must have a class_uri instance variable supplied" sits
    under [if class_uri is not None:] and so never fires. *)
Theorem init_specialisation_without_class_uri_accepted :
  ("MyBlock" ∉ known_classes) /\
  (forall env u l n,
     exists st, ProvReporter_init "MyBlock" env u l n None = OK st
                /\ class_uri st = None).
Proof.
  split.
  - apply (bool_decide_unpack _). vm_compute. exact I.
  - intros. rewrite init_without_class_uri. eauto.
Qed.

(** The check for a missing [class_uri] is unreachable: whatever the class
    and the arguments, that message is never raised. *)
Lemma init_never_reports_missing_class_uri cls env u l n c :
  ProvReporter_init cls env u l n c
  <> Raise (ProvWorkflowException msg_class_uri_missing).
Proof.
  destruct c as [c|]; [|discriminate].
  unfold ProvReporter_init.
  destruct (bool_decide (cls ∈ known_classes)); cbn; [discriminate|].
  rewrite andb_false_r.
  destruct (startswith "http" (as_URIRef c)); cbn; discriminate.
Qed.

(** ** Graph building *)

(** On a graph that is passed in, [ProvReporter.prov_to_graph] extends that
    very object and returns it. *)
Lemma ProvReporter_prov_to_graph_Some st g h :
  ProvReporter_prov_to_graph st (Some g) h = (OK g, alter (extended st) g h).
Proof.
  unfold ProvReporter_prov_to_graph, bind, ret, g_bind, g_add.
  destruct (label st) as [l|] eqn:Hl;
    rewrite !list_alter_alter_eq; f_equal;
    (apply list_alter_ext; [|reflexivity]);
    intros [i ns ts] _; unfold extended, own_triples, graph_add, graph_bind;
    cbn; rewrite Hl; cbn; rewrite <- !app_assoc; reflexivity.
Qed.

(** Without a graph, it allocates one, tagged with the record's
    [named_graph_uri], and extends it. *)
Lemma ProvReporter_prov_to_graph_None st h :
  ProvReporter_prov_to_graph st None h
  = (OK (length h), h ++ [extended st (mkGraph (named_graph_uri st) [] [])]).
Proof.
  transitivity (ProvReporter_prov_to_graph st (Some (length h))
                  (h ++ [mkGraph (named_graph_uri st) [] []])).
  - unfold ProvReporter_prov_to_graph.
    destruct (named_graph_uri st); reflexivity.
  - rewrite ProvReporter_prov_to_graph_Some.
    rewrite <- (Nat.add_0_r (length h)) at 2. rewrite alter_app_r. reflexivity.
Qed.




(** C3: [Workflow.prov_to_graph] on a workflow whose [blocks] is [None] or
    empty raises, and the store of graphs is exactly as before: no graph is
    created, and the graph passed in, if any, is unchanged. *)
Theorem Workflow_prov_to_graph_no_blocks st attr g h :
  prov_to_graph (Wf st attr None) g h
  = (Raise (ProvWorkflowException msg_no_block), h)
  /\ prov_to_graph (Wf st attr (Some [])) g h
     = (Raise (ProvWorkflowException msg_no_block), h).
Proof. split; reflexivity. Qed.

(** What [Workflow.__init__] builds. *)
Lemma Workflow_init_eq env u l blocks :
  Workflow_init env u l blocks
  = OK (Wf (mkProvReporter "Workflow"
              (match u with Some u => as_URIRef u | None => PWFS +:+ uuid1 env end)
              (as_Literal <$> l) None None (version env)
              (mkLiteral (now env) (Some (XSD +:+ "dateTimeStamp"))))
           None
           (match blocks with None => Some [] | Some _ => blocks end)).
Proof. reflexivity. Qed.

(** With blocks but no [PROVWF] attribute, [Workflow.prov_to_graph] stops
    at [self.PROVWF.Workflow]: by then only [ProvReporter.prov_to_graph] has
    run. *)
Lemma Workflow_prov_to_graph_unbound st b bs g h :
  prov_to_graph (Wf st None (Some (b :: bs))) g h
  = (Raise (AttributeError
              ("'" +:+ class_name st +:+ "' object has no attribute 'PROVWF'")),
     snd (ProvReporter_prov_to_graph st g h)).
Proof.
  cbn [prov_to_graph].
  rewrite bool_decide_eq_false_2 by (cbn; lia).
  unfold bind at 1.
  destruct g as [g|];
    [rewrite ProvReporter_prov_to_graph_Some
    |rewrite ProvReporter_prov_to_graph_None]; reflexivity.
Qed.

(** C2, as the code behaves: a workflow built by [Workflow.__init__] with
    children [b :: bs] does not return a graph from [prov_to_graph]: the
    call raises [AttributeError] at [self.PROVWF.Workflow], and the graph
    holds what [ProvReporter.prov_to_graph] alone emits: no [Workflow] type
    triple, no statement of any child, no [hadBlock] triple. *)
Theorem Workflow_prov_to_graph_raises_AttributeError env u l b bs g h :
  exists st,
    Workflow_init env u l (Some (b :: bs)) = OK (Wf st None (Some (b :: bs)))
    /\ prov_to_graph (Wf st None (Some (b :: bs))) g h
       = (Raise (AttributeError "'Workflow' object has no attribute 'PROVWF'"),
          snd (ProvReporter_prov_to_graph st g h)).
Proof.
  rewrite Workflow_init_eq. eexists. split; [reflexivity|].
  rewrite Workflow_prov_to_graph_unbound. reflexivity.
Qed.

(** ** Persistence *)

Lemma bind_OK_inv {S A B} (c : M S A) (k : A -> M S B) s v s' :
  bind c k s = (OK v, s') ->
  exists a s1, c s = (OK a, s1) /\ k a s1 = (OK v, s').
Proof.
  unfold bind. destruct (c s) as [[a|e] s1]; intros H; [eauto|discriminate].
Qed.

Lemma check_methods_known {S} (methods : list string) (s : S) :
  (forall m, m ∈ methods -> m ∈ known_methods) ->
  check_methods methods s = (OK tt, s).
Proof.
  induction methods as [|m ms IH]; intros Hall; [reflexivity|].
  cbn [check_methods].
  rewrite bool_decide_eq_false_2.
  - apply IH. intros m' Hm'. apply Hall. right. exact Hm'.
  - intros Hm. apply Hm, Hall. left.
Qed.

Lemma check_methods_unknown {S} (methods : list string) (s : S) :
  (exists m, m ∈ methods /\ (m ∉ known_methods)) ->
  exists m, m ∈ methods /\ (m ∉ known_methods)
            /\ check_methods methods s
               = (Raise (ProvWorkflowException (msg_unknown_method m)), s).
Proof.
  induction methods as [|m ms IH]; intros (m' & Hin & Hbad).
  - apply elem_of_nil in Hin. destruct Hin.
  - cbn [check_methods].
    destruct (bool_decide (m ∉ known_methods)) eqn:Hm.
    + apply bool_decide_eq_true_1 in Hm. exists m.
      split; [left|]. split; [exact Hm|reflexivity].
    + apply bool_decide_eq_false_1 in Hm.
      apply elem_of_cons in Hin. destruct Hin as [->|Hin]; [contradiction|].
      destruct IH as (m0 & Hin0 & Hbad0 & Heq); [eauto|].
      exists m0. split; [right; exact Hin0|]. split; [exact Hbad0|exact Heq].
Qed.

(** The text of the error for an unknown method: the offending name, then
    the four valid names. *)
Lemma msg_unknown_method_eq method :
  msg_unknown_method method
  = "A persistent method you selected, " +:+ method +:+
    ", is not in the list of known methods, 'graphdb', 'sop', 'file', 'string'".
Proof. reflexivity. Qed.

(** C4: when some selected name is not a known method, [persist] raises
    the exception whose message names an offending value and lists the valid
    ones, and the world is exactly as before: nothing is appended to the
    trace (no file written, no request sent) and no graph is built or
    changed, whatever valid names are selected alongside. *)
Theorem persist_unknown_method_no_effect cls_or_self g methods path n w :
  (exists m, m ∈ normalise_methods methods /\ (m ∉ known_methods)) ->
  exists m,
    m ∈ normalise_methods methods /\ (m ∉ known_methods)
    /\ persist cls_or_self g methods path n w
       = (Raise (ProvWorkflowException
                   ("A persistent method you selected, " +:+ m +:+
                    ", is not in the list of known methods, 'graphdb', 'sop', 'file', 'string'")),
          w).
Proof.
  intros Hbad.
  destruct (check_methods_unknown (normalise_methods methods) w Hbad)
    as (m & Hin & Hm & Heq).
  exists m. split; [exact Hin|]. split; [exact Hm|].
  unfold persist. unfold bind at 1. rewrite Heq. reflexivity.
Qed.

(** Once every selected name is known, [persist] on the class without a
    graph raises; with a graph it runs the backends on that graph. *)
Lemma persist_OnClass_None methods path n w :
  (forall m, m ∈ normalise_methods methods -> m ∈ known_methods) ->
  persist OnClass None methods path n w
  = (Raise (ProvWorkflowException msg_no_graph), w).
Proof.
  intros Hall. unfold persist. unfold bind at 1.
  rewrite (check_methods_known _ _ Hall). reflexivity.
Qed.

Lemma persist_OnClass_Some g methods path n w :
  (forall m, m ∈ normalise_methods methods -> m ∈ known_methods) ->
  persist OnClass (Some g) methods path n w
  = dispatch g n (normalise_methods methods) path w.
Proof.
  intros Hall. unfold persist. unfold bind at 1.
  rewrite (check_methods_known _ _ Hall). reflexivity.
Qed.

(** On an instance, the graph is the one its [prov_to_graph] returns when
    called without a graph, whatever graph the caller passed. *)
Lemma persist_OnInstance self g methods path n w :
  (forall m, m ∈ normalise_methods methods -> m ∈ known_methods) ->
  persist (OnInstance self) g methods path n w
  = match prov_to_graph self None (graphs w) with
    | (OK gr, h1) =>
        dispatch gr (instance_target self n) (normalise_methods methods) path
                 (mkWorld h1 (trace w))
    | (Raise e, h1) => (Raise e, mkWorld h1 (trace w))
    end.
Proof.
  intros Hall. unfold persist. unfold bind at 1.
  rewrite (check_methods_known _ _ Hall).
  unfold bind at 1. unfold bind at 1. unfold on_heap, instance_target.
  destruct (prov_to_graph self None (graphs w)) as [[gr|e] h1]; [|reflexivity].
  destruct (get_named_graph_uri self); reflexivity.
Qed.

Lemma persisted_refl g n w : persisted g n w w.
Proof. split; [reflexivity|]. exists []. rewrite app_nil_r. auto. Qed.

Lemma persisted_trans g n w1 w2 w3 :
  persisted g n w1 w2 -> persisted g n w2 w3 -> persisted g n w1 w3.
Proof.
  intros [Hg1 (e1 & Ht1 & Ha1)] [Hg2 (e2 & Ht2 & Ha2)].
  split; [congruence|]. exists (e1 ++ e2).
  split; [rewrite Ht2, Ht1, app_assoc; reflexivity|].
  apply Forall_app. split; [exact Ha1|]. rewrite <- Hg1. exact Ha2.
Qed.

Lemma persists_ret {A} g n (a : A) : persists g n (ret a).
Proof. intros w r w' [= <- <-]. apply persisted_refl. Qed.

Lemma persists_when g n b (c : M World unit) :
  persists g n c -> persists g n (when b c).
Proof. intros Hc. destruct b; [exact Hc|apply persists_ret]. Qed.

Lemma check_methods_cases {S} (methods : list string) (s : S) :
  check_methods methods s = (OK tt, s)
  \/ exists m, check_methods methods s
               = (Raise (ProvWorkflowException (msg_unknown_method m)), s).
Proof.
  induction methods as [|m ms IH]; [left; reflexivity|].
  cbn [check_methods]. destruct (bool_decide (m ∉ known_methods)).
  - right. exists m. reflexivity.
  - exact IH.
Qed.

Lemma check_methods_OK_known {S} (methods : list string) (s s' : S) :
  check_methods methods s = (OK tt, s') ->
  forall m, m ∈ methods -> m ∈ known_methods.
Proof.
  induction methods as [|m ms IH]; intros H m' Hin.
  - apply elem_of_nil in Hin. destruct Hin.
  - cbn [check_methods] in H.
    destruct (bool_decide (m ∉ known_methods)) eqn:Hm; [discriminate|].
    apply bool_decide_eq_false_1 in Hm.
    apply elem_of_cons in Hin. destruct Hin as [->|Hin].
    + destruct (decide (m ∈ known_methods)); [assumption|contradiction].
    + eapply IH; eassumption.
Qed.

Lemma persists_file g path n : persists g n (_persist_to_file g path n).
Proof.
  intros w r w'. unfold _persist_to_file, bind, read_graph, emit.
  destruct n; intros [= <- <-]; (split; [reflexivity|]);
    eexists [_]; (split; [reflexivity|]); repeat constructor.
Qed.

Lemma persists_graphdb g n : persists g n (_persist_to_graphdb g n).
Proof.
  intros w r w'. unfold _persist_to_graphdb, bind, read_graph, emit, raise, ret.
  destruct (differs_from_null n) eqn:Hd.
  - assert (Hev : forall url auth,
              about g (graphs w !! g) n
                (HttpPost url
                   match n with None => "null" | Some x => "<" +:+ str_of x +:+ ">" end
                   g (serialize turtle (Some "utf-8") (graphs w !! g))
                   "text/turtle" auth)).
    { intros. cbn. auto. }
    destruct n as [x|]; cbn [graphs trace];
      (destruct (requests_post _ _ _ _ _) as [resp|e];
       [destruct (bool_decide (status_code resp ≠ 204%Z))|]);
      intros [= <- <-]; (split; [reflexivity|]);
      eexists [_]; (split; [reflexivity|]);
      (constructor; [apply Hev|constructor]).
  - intros [= <- <-]. apply persisted_refl.
Qed.

Lemma persists_sop g n : persists g n (_persist_to_sop g n).
Proof.
  intros w r w'. unfold _persist_to_sop, bind, read_graph, emit, raise, ret.
  cbn [graphs trace].
  destruct (query_sop_sparql _ _ _) as [resp|e];
    [destruct (negb (ok resp))|];
    intros [= <- <-]; (split; [reflexivity|]);
    eexists [_]; (split; [reflexivity|]); repeat constructor.
Qed.

Lemma string_backend g n methods w r w' :
  (if bool_decide ("string" ∈ methods) then
     content <- read_graph g ;;
     x <- match n with
          | None => ret (serialize turtle None content)
          | Some _ => s <- decode (serialize trig None content) ;; ret (TStr s)
          end ;;
     match x with
     | TStr s => ret (Some s)
     | TBytes _ => s <- decode x ;; ret (Some s)
     end
   else ret None) w = (r, w') ->
  w' = w /\ forall v, r = OK v -> v = returned g n methods w.
Proof.
  unfold returned, bind, read_graph, ret, decode, raise.
  destruct (bool_decide ("string" ∈ methods)).
  - destruct n as [x|]; cbn [format_for];
      destruct (serialize _ None (graphs w !! g)) as [t|b];
      intros [= <- <-]; (split; [reflexivity|]); intros v [= <-]; reflexivity.
  - intros [= <- <-]. split; [reflexivity|]. intros v [= <-]. reflexivity.
Qed.

(** The backends only append events about the graph and target they are
    given, and the value returned is the serialisation of that graph when
    [string] is selected, nothing otherwise. *)
Lemma dispatch_spec g n methods path w r w' :
  dispatch g n methods path w = (r, w') ->
  persisted g n w w' /\ forall v, r = OK v -> v = returned g n methods w'.
Proof.
  unfold dispatch. intros H.
  unfold bind at 1 in H.
  destruct (when _ (_persist_to_file g path n) w) as [[[]|e1] w1] eqn:H1.
  2:{ injection H as <- <-. split; [|discriminate].
      eapply (persists_when g n), H1. apply persists_file. }
  assert (P1 : persisted g n w w1)
    by (eapply (persists_when g n), H1; apply persists_file).
  unfold bind at 1 in H.
  destruct (when _ (_persist_to_graphdb g n) w1) as [[[]|e2] w2] eqn:H2.
  2:{ injection H as <- <-. split; [|discriminate].
      eapply persisted_trans; [exact P1|].
      eapply (persists_when g n), H2. apply persists_graphdb. }
  assert (P2 : persisted g n w1 w2)
    by (eapply (persists_when g n), H2; apply persists_graphdb).
  unfold bind at 1 in H.
  destruct (when _ (_persist_to_sop g n) w2) as [[[]|e3] w3] eqn:H3.
  2:{ injection H as <- <-. split; [|discriminate].
      eapply persisted_trans; [exact P1|]. eapply persisted_trans; [exact P2|].
      eapply (persists_when g n), H3. apply persists_sop. }
  assert (P3 : persisted g n w2 w3)
    by (eapply (persists_when g n), H3; apply persists_sop).
  apply string_backend in H. destruct H as [-> Hv].
  split; [|exact Hv].
  eapply persisted_trans; [exact P1|]. eapply persisted_trans; [exact P2|exact P3].
Qed.

(** Without a graph, [prov_to_graph] returns a graph object that did not
    exist before the call. *)
Lemma prov_to_graph_None_fresh self h gr h1 :
  prov_to_graph self None h = (OK gr, h1) -> gr = length h.
Proof.
  destruct self as [st|st attr [bs|]]; cbn [prov_to_graph].
  - rewrite ProvReporter_prov_to_graph_None. intros [= <- _]. reflexivity.
  - destruct (bool_decide (length bs < 1)); [discriminate|].
    unfold bind at 1. rewrite ProvReporter_prov_to_graph_None.
    intros H.
    apply bind_OK_inv in H. destruct H as (ns & s1 & _ & H).
    apply bind_OK_inv in H. destruct H as (? & s2 & _ & H).
    apply bind_OK_inv in H. destruct H as (? & s3 & _ & H).
    injection H as <- _. reflexivity.
  - discriminate.
Qed.

(** C5, amended: on the class, without a graph and with every selected
    name known, [persist] raises the exception saying that a graph must be
    supplied, and nothing happens in the world; with a graph supplied, every
    event of the call is about that graph object, its content and the
    caller's target, no graph is created or changed, and the value returned
    is the serialisation of that graph. *)
Theorem persist_on_class methods path n w :
  (forall m, m ∈ normalise_methods methods -> m ∈ known_methods) ->
  persist OnClass None methods path n w
  = (Raise (ProvWorkflowException msg_no_graph), w)
  /\ forall g r w',
       persist OnClass (Some g) methods path n w = (r, w') ->
       persisted g n w w'
       /\ forall v, r = OK v ->
                    v = returned g n (normalise_methods methods) w.
Proof.
  intros Hall. split; [apply persist_OnClass_None, Hall|].
  intros g r w'. rewrite (persist_OnClass_Some _ _ _ _ _ Hall). intros H.
  apply dispatch_spec in H. destruct H as [Hp Hv]. split; [exact Hp|].
  intros v Hr. rewrite (Hv v Hr). unfold returned.
  destruct Hp as [-> _]. reflexivity.
Qed.

(** With no [methods] and no target, [persist] on the class returns the
    Turtle text of the graph it is given and leaves the world as it was. *)
Lemma persist_default g0 path w :
  persist OnClass (Some g0) MethodsNone path None w
  = (OK (Some (text_of (serialize turtle None (graphs w !! g0)))), w).
Proof.
  rewrite persist_OnClass_Some.
  2:{ intros m Hm. apply list_elem_of_singleton in Hm. subst m.
      apply (bool_decide_unpack _). vm_compute. exact I. }
  unfold dispatch. cbn [normalise_methods].
  assert (Hfile : bool_decide ("file" ∈ ["string"]) = false) by (vm_compute; reflexivity).
  assert (Hgdb : bool_decide ("graphdb" ∈ ["string"]) = false) by (vm_compute; reflexivity).
  assert (Hsop : bool_decide ("sop" ∈ ["string"]) = false) by (vm_compute; reflexivity).
  assert (Hstr : bool_decide ("string" ∈ ["string"]) = true) by (vm_compute; reflexivity).
  rewrite Hfile, Hgdb, Hsop, Hstr.
  unfold when, bind, ret, read_graph, decode.
  destruct (serialize turtle None (graphs w !! g0)); destruct w; reflexivity.
Qed.

(** Whenever [persist] returns, it returns a string exactly when
    [string] is among the selected methods, and then the string is the
    serialisation of the persisted graph: the graph supplied on the class,
    left as it was, and on an instance the graph that [prov_to_graph] of the
    record built.  Otherwise it returns [None].  With no [methods] the
    selection is [string] alone, and on the class with a graph and no target
    that call does return the Turtle text. *)
Lemma persist_returns_string_iff_selected cls_or_self g methods path n w v w' :
  persist cls_or_self g methods path n w = (OK v, w') ->
  (is_Some v <-> "string" ∈ normalise_methods methods)
  /\ (v = None <-> "string" ∉ normalise_methods methods)
  /\ (exists gr target,
        v = returned gr target (normalise_methods methods) w'
        /\ match cls_or_self with
           | OnClass => g = Some gr /\ target = n /\ graphs w' = graphs w
           | OnInstance self =>
               gr = length (graphs w) /\ target = instance_target self n
               /\ prov_to_graph self None (graphs w) = (OK gr, graphs w')
           end)
  /\ normalise_methods MethodsNone = ["string"]
  /\ (forall g0, persist OnClass (Some g0) MethodsNone path None w
                 = (OK (Some (text_of (serialize turtle None (graphs w !! g0)))), w)).
Proof.
  intros H.
  assert (Hex : exists gr target,
            v = returned gr target (normalise_methods methods) w'
            /\ match cls_or_self with
               | OnClass => g = Some gr /\ target = n /\ graphs w' = graphs w
               | OnInstance self =>
                   gr = length (graphs w) /\ target = instance_target self n
                   /\ prov_to_graph self None (graphs w) = (OK gr, graphs w')
               end).
  { assert (Hall : forall m, m ∈ normalise_methods methods -> m ∈ known_methods).
    { unfold persist in H. apply bind_OK_inv in H.
      destruct H as ([] & s1 & Hc & _).
      eapply check_methods_OK_known, Hc. }
    destruct cls_or_self as [|self].
    - destruct g as [g|].
      + rewrite (persist_OnClass_Some _ _ _ _ _ Hall) in H.
        apply dispatch_spec in H. destruct H as [[Hg _] Hv].
        exists g, n. split; [apply Hv; reflexivity|].
        split; [reflexivity|]. split; [reflexivity|exact Hg].
      + rewrite (persist_OnClass_None _ _ _ _ Hall) in H. discriminate.
    - rewrite (persist_OnInstance _ _ _ _ _ _ Hall) in H.
      destruct (prov_to_graph self None (graphs w)) as [[gr|e] h1] eqn:Hb;
        [|discriminate].
      pose proof (prov_to_graph_None_fresh _ _ _ _ Hb) as Hfresh.
      apply dispatch_spec in H. destruct H as [[Hg _] Hv].
      cbn [graphs] in Hg. subst h1.
      exists gr, (instance_target self n).
      split; [apply Hv; reflexivity|].
      split; [exact Hfresh|]. split; [reflexivity|reflexivity]. }
  assert (Hv : v = if bool_decide ("string" ∈ normalise_methods methods)
                   then v else None).
  { destruct Hex as (gr & t & -> & _). unfold returned.
    destruct (bool_decide _); reflexivity. }
  assert (Hs : "string" ∈ normalise_methods methods -> is_Some v).
  { intros Hin. destruct Hex as (gr & t & -> & _). unfold returned.
    rewrite (bool_decide_eq_true_2 _ Hin). eauto. }
  split; [|split; [|split; [exact Hex|split; [reflexivity|]]]].
  - split; [|exact Hs]. intros [s Hsome]. rewrite Hv in Hsome.
    destruct (bool_decide ("string" ∈ normalise_methods methods)) eqn:Hb;
      [apply bool_decide_eq_true_1 in Hb; exact Hb|discriminate].
  - split.
    + intros -> Hin. destruct (Hs Hin) as [s Hsome]. discriminate.
    + intros Hnot. rewrite Hv. rewrite (bool_decide_eq_false_2 _ Hnot). reflexivity.
  - intros g0. apply persist_default.
Qed.

(** C7, amended: on an instance, with every selected name known, the graph
    the backends receive is the one [prov_to_graph] of the bound record
    builds in a new graph object, whatever graph the caller passed; the
    target they receive is the record's [named_graph_uri] whenever the
    record has one, also against an argument of the caller, and the
    caller's argument only when the record has none.  If the graph build
    raises, so does [persist], before any backend. *)
Theorem persist_on_instance self g methods path n w r w' :
  (forall m, m ∈ normalise_methods methods -> m ∈ known_methods) ->
  persist (OnInstance self) g methods path n w = (r, w') ->
  exists built h1,
    prov_to_graph self None (graphs w) = (built, h1)
    /\ graphs w' = h1
    /\ match built with
       | OK gr =>
           gr = length (graphs w)
           /\ persisted gr (instance_target self n) (mkWorld h1 (trace w)) w'
           /\ forall v, r = OK v ->
                        v = returned gr (instance_target self n)
                                     (normalise_methods methods) w'
       | Raise e => r = Raise e /\ trace w' = trace w
       end
    /\ (forall t, get_named_graph_uri self = Some t ->
                  instance_target self n = Some (Ref t))
    /\ (get_named_graph_uri self = None -> instance_target self n = n).
Proof.
  intros Hall. rewrite (persist_OnInstance _ _ _ _ _ _ Hall).
  destruct (prov_to_graph self None (graphs w)) as [[gr|e] h1] eqn:Hb; intros H.
  - exists (OK gr), h1. split; [reflexivity|].
    apply dispatch_spec in H. destruct H as [Hp Hv].
    split; [destruct Hp as [Hg _]; exact Hg|].
    split; [split; [eapply prov_to_graph_None_fresh, Hb|split; assumption]|].
    unfold instance_target. split; [intros t ->; reflexivity|intros ->; reflexivity].
  - injection H as <- <-. exists (Raise e), h1. split; [reflexivity|].
    split; [reflexivity|]. split; [split; reflexivity|].
    unfold instance_target. split; [intros t ->; reflexivity|intros ->; reflexivity].
Qed.

(** C8, as the code behaves: [".ttl"] is removed wherever it occurs in the
    base path, not only as its extension; a base path with a directory named
    [out.ttl.d] is written under [out.d]. *)
Theorem persist_to_file_rewrites_directory :
  _persist_to_file 0 "out.ttl.d/prov" None ex_world
  = (OK tt, mkWorld [ex_graph]
                    [FileWrite "out.d/prov.ttl" turtle 0 (Some ex_graph)]).
Proof. reflexivity. Qed.

(** On base paths where the extension is the only occurrence, the file
    backend does strip it and append the one that fits the target. *)
Example persist_to_file_default :
  trace (snd (_persist_to_file 0 "prov_reporter" None ex_world))
  = [FileWrite "prov_reporter.ttl" turtle 0 (Some ex_graph)].
Proof. reflexivity. Qed.

Example persist_to_file_ttl_to_trig :
  trace (snd (_persist_to_file 0 "results/run1.ttl"
                (Some (Str "http://example.com/graph/1")) ex_world))
  = [FileWrite "results/run1.trig" trig 0 (Some ex_graph)].
Proof. reflexivity. Qed.

(** ** The run of [prov_to_graph] on a graph it is given *)

Lemma after_nothing x g (h : list Graph) :
  alter (after (mkEmission [] [] x)) g h = h.
Proof.
  apply list_alter_id. intros [i ns ts]. unfold after. cbn.
  rewrite !app_nil_r. reflexivity.
Qed.

Lemma after_then e1 e2 g (h : list Graph) :
  raised e1 = None ->
  alter (after e2) g (alter (after e1) g h) = alter (after (then_emit e1 e2)) g h.
Proof.
  intros H1. rewrite list_alter_alter_eq. apply list_alter_ext; [|reflexivity].
  intros [i ns ts] _. unfold then_emit, after. rewrite H1. cbn.
  rewrite !app_assoc. reflexivity.
Qed.

Lemma graph_add_after t g (h : list Graph) :
  alter (graph_add t) g h = alter (after (mkEmission [] [t] None)) g h.
Proof.
  apply list_alter_ext; [|reflexivity].
  intros [i ns ts] _. unfold graph_add, after. cbn.
  rewrite app_nil_r. reflexivity.
Qed.

Lemma then_emit_raised e1 e2 x : raised e1 = Some x -> then_emit e1 e2 = e1.
Proof. intros H. unfold then_emit. rewrite H. reflexivity. Qed.

Lemma then_emit_raised_None e1 e2 :
  raised e1 = None -> raised (then_emit e1 e2) = raised e2.
Proof. intros H. unfold then_emit. rewrite H. reflexivity. Qed.

Lemma then_emit_assoc e1 e2 e3 :
  then_emit (then_emit e1 e2) e3 = then_emit e1 (then_emit e2 e3).
Proof.
  unfold then_emit.
  destruct e1 as [b1 s1 [x|]], e2 as [b2 s2 [y|]]; cbn; try reflexivity.
  rewrite !app_assoc. reflexivity.
Qed.

Lemma for_blocks_emission st ns g bs :
  Forall (fun self => forall g h,
            prov_to_graph self (Some g) h
            = (outcome (emission self) g, alter (after (emission self)) g h)) bs ->
  forall h,
    for_blocks prov_to_graph st (Some ns) g bs h
    = (match raised (blocks_emission emission ns st bs) with
       | None => OK tt
       | Some x => Raise x
       end,
       alter (after (blocks_emission emission ns st bs)) g h).
Proof.
  induction 1 as [|block bs Hb _ IH]; intros h; cbn [for_blocks blocks_emission].
  - rewrite after_nothing. reflexivity.
  - unfold bind at 1. rewrite Hb. unfold outcome.
    destruct (raised (emission block)) as [x|] eqn:Hr.
    + rewrite (then_emit_raised _ _ x Hr), Hr. reflexivity.
    + unfold getattr_PROVWF, bind at 1, ret at 1.
      unfold bind at 1, g_add at 1. rewrite IH.
      fold (hadBlock_triple ns st block).
      rewrite graph_add_after.
      rewrite (after_then (emission block)) by exact Hr.
      rewrite after_then.
      2:{ rewrite then_emit_raised_None by exact Hr. reflexivity. }
      rewrite !then_emit_raised_None by (exact Hr || reflexivity).
      rewrite then_emit_assoc. reflexivity.
Qed.

(** [prov_to_graph] on a graph that is passed in does to that graph object
    what [emission] says, and to no other; whether it raises does not
    depend on the graph. *)
Lemma prov_to_graph_emission self : forall g h,
  prov_to_graph self (Some g) h
  = (outcome (emission self) g, alter (after (emission self)) g h).
Proof.
  induction self as [st|st attr blocks IH] using Reporter_nested_ind; intros g h.
  - apply ProvReporter_prov_to_graph_Some.
  - destruct blocks as [bs|]; cbn [prov_to_graph emission].
    2:{ rewrite after_nothing. reflexivity. }
    destruct (bool_decide (length bs < 1)).
    { rewrite after_nothing. reflexivity. }
    unfold bind at 1. rewrite ProvReporter_prov_to_graph_Some.
    destruct attr as [ns|]; [|reflexivity].
    unfold getattr_PROVWF at 1. unfold bind at 1. unfold ret at 1.
    unfold bind at 1. unfold g_add at 1.
    unfold bind at 1. rewrite (for_blocks_emission st ns g bs IH).
    rewrite graph_add_after.
    change (extended st) with (after (mkEmission own_bindings (own_triples st) None)).
    rewrite after_then by reflexivity.
    rewrite after_then by reflexivity.
    unfold outcome. rewrite then_emit_raised_None by reflexivity.
    assert (Hsame :
      alter (after (then_emit
                      (then_emit (mkEmission own_bindings (own_triples st) None)
                         (mkEmission [] [(URIRef (uri st), term_of RDF "type",
                                          term_of ns "Workflow")] None))
                      (blocks_emission emission ns st bs))) g h
      = alter (after (then_emit
                        (mkEmission own_bindings
                           (own_triples st
                            ++ [(URIRef (uri st), term_of RDF "type",
                                 term_of ns "Workflow")]) None)
                        (blocks_emission emission ns st bs))) g h).
    { apply list_alter_ext; [|reflexivity]. intros [i n t] _.
      unfold after, then_emit. cbn. rewrite ?app_nil_r. reflexivity. }
    rewrite <- then_emit_assoc.
    destruct (raised (blocks_emission emission ns st bs));
      unfold ret; f_equal; exact Hsame.
Qed.

(** Every record, workflows included: two runs of [prov_to_graph] on the
    same graph object end the same way and append the same statements. *)
Lemma prov_to_graph_twice_same_emission self g h G :
  h !! g = Some G ->
  exists r h1 h2 G1 G2,
    prov_to_graph self (Some g) h = (r, h1)
    /\ prov_to_graph self (Some g) h1 = (r, h2)
    /\ h1 !! g = Some G1 /\ h2 !! g = Some G2
    /\ triples G1 = triples G ++ stated (emission self)
    /\ triples G2 = triples G1 ++ stated (emission self).
Proof.
  intros HG.
  exists (outcome (emission self) g), (alter (after (emission self)) g h),
         (alter (after (emission self)) g (alter (after (emission self)) g h)),
         (after (emission self) G), (after (emission self) (after (emission self) G)).
  rewrite !prov_to_graph_emission.
  rewrite !list_lookup_alter_eq, HG. cbn. repeat split; reflexivity.
Qed.

(** The statements of the loop when no block raises: for each block in
    order, its own run and then one [hadBlock] triple. *)
Lemma blocks_emission_stated ns st bs :
  Forall (fun b => raised (emission b) = None) bs ->
  raised (blocks_emission emission ns st bs) = None
  /\ stated (blocks_emission emission ns st bs)
     = flat_map (fun b => stated (emission b) ++ [hadBlock_triple ns st b]) bs.
Proof.
  induction 1 as [|b bs Hb _ [IHr IHs]]; cbn [blocks_emission flat_map].
  - split; reflexivity.
  - unfold then_emit. rewrite Hb. cbn [raised stated].
    rewrite IHr, IHs. split; [reflexivity|].
    rewrite <- app_assoc. reflexivity.
Qed.

(** X5: The aggregation itself, for a workflow on which an attribute [PROVWF]
    is bound: with at least one block, and blocks whose own graph build does
    not raise, [prov_to_graph] returns the graph object it was given, to
    which it has added the workflow's own triples, its [Workflow] type
    triple, and for each block in order the statements of the block's own
    graph build followed by one [hadBlock] triple. *)
Lemma Workflow_prov_to_graph_aggregates st ns b bs g h G :
  Forall (fun c => raised (emission c) = None) (b :: bs) ->
  h !! g = Some G ->
  exists h' G',
    prov_to_graph (Wf st (Some ns) (Some (b :: bs))) (Some g) h = (OK g, h')
    /\ h' !! g = Some G'
    /\ triples G'
       = triples G ++ own_triples st
         ++ [(URIRef (uri st), term_of RDF "type", term_of ns "Workflow")]
         ++ flat_map (fun c => stated (emission c) ++ [hadBlock_triple ns st c])
                     (b :: bs).
Proof.
  intros Hok HG. rewrite prov_to_graph_emission.
  destruct (blocks_emission_stated ns st _ Hok) as [Hr Hs].
  cbn [emission]. rewrite bool_decide_eq_false_2 by (cbn; lia).
  do 2 eexists. split; [|split].
  - unfold outcome. rewrite then_emit_raised_None by reflexivity.
    rewrite Hr. reflexivity.
  - rewrite list_lookup_alter_eq, HG. reflexivity.
  - unfold after, then_emit. cbn [raised stated triples]. rewrite Hs.
    rewrite <- !app_assoc. reflexivity.
Qed.

(** * Further properties of the code *)

(** ** Construction *)

(** X1: [ProvReporter.__init__] returns a record exactly when no [class_uri]
    is passed, or when the class is none of the five built-in kinds and the
    [class_uri] starts with [http]. *)
Theorem ProvReporter_init_succeeds_iff cls env u l n c :
  (exists st, ProvReporter_init cls env u l n c = OK st)
  <-> (c = None
       \/ exists x, c = Some x /\ (cls ∉ known_classes)
                    /\ startswith "http" (str_of x) = true).
Proof.
  split.
  - intros [st H]. destruct c as [x|]; [right|left; reflexivity].
    exists x. split; [reflexivity|].
    unfold ProvReporter_init in H.
    destruct (bool_decide (cls ∈ known_classes)) eqn:Hk; [discriminate|].
    apply bool_decide_eq_false_1 in Hk. split; [exact Hk|].
    cbn in H. rewrite andb_false_r in H. unfold as_URIRef in H.
    destruct (startswith "http" (str_of x)); [reflexivity|discriminate].
  - intros [->|(x & -> & Hk & Hp)].
    + rewrite init_without_class_uri. eauto.
    + destruct (init_specialised_http cls env u l n x Hk Hp) as (st & H & _).
      eauto.
Qed.

Lemma append_inj_l (p a b : string) : p +:+ a = p +:+ b -> a = b.
Proof.
  induction p as [|c p IH]; cbn; intros H; [exact H|].
  injection H as H. apply IH, H.
Qed.

Lemma ProvReporter_init_uri cls env u l n c st :
  ProvReporter_init cls env u l n c = OK st ->
  uri st = match u with Some x => str_of x | None => PWFS +:+ uuid1 env end.
Proof.
  unfold ProvReporter_init. destruct c as [x|].
  - destruct (bool_decide (cls ∈ known_classes)); cbn; [discriminate|].
    rewrite andb_false_r.
    destruct (startswith "http" (as_URIRef x)); cbn; [|discriminate].
    intros [= <-]. reflexivity.
  - intros [= <-]. reflexivity.
Qed.

(** X2: Two records built without a [uri] get different URIs whenever
    [uuid.uuid1()] gave different values, whatever their classes and other
    arguments. *)
Theorem ProvReporter_init_generated_uris_differ
    cls1 cls2 env1 env2 l1 l2 n1 n2 c1 c2 st1 st2 :
  ProvReporter_init cls1 env1 None l1 n1 c1 = OK st1 ->
  ProvReporter_init cls2 env2 None l2 n2 c2 = OK st2 ->
  uuid1 env1 <> uuid1 env2 ->
  uri st1 <> uri st2.
Proof.
  intros H1 H2 Hne Heq.
  apply ProvReporter_init_uri in H1. apply ProvReporter_init_uri in H2.
  rewrite H1, H2 in Heq. apply append_inj_l in Heq. exact (Hne Heq).
Qed.

(** ** Graph building *)

(** X3: [prov_to_graph] of any record, workflows and their nested blocks
    included, on a graph that is passed in: it returns that same object or
    raises; it creates no graph and changes no other graph; and in the graph
    it was given it keeps the identifier and only appends, to the prefixes
    and to the statements, also when it raises. *)
Theorem prov_to_graph_only_appends_to_given_graph self g h G :
  h !! g = Some G ->
  exists r h' G',
    prov_to_graph self (Some g) h = (r, h')
    /\ (r = OK g \/ exists e, r = Raise e)
    /\ length h' = length h
    /\ (forall g', g' <> g -> h' !! g' = h !! g')
    /\ h' !! g = Some G'
    /\ identifier G' = identifier G
    /\ (exists bs, namespaces G' = namespaces G ++ bs)
    /\ (exists ts, triples G' = triples G ++ ts).
Proof.
  intros HG. rewrite prov_to_graph_emission.
  exists (outcome (emission self) g), (alter (after (emission self)) g h),
         (after (emission self) G).
  split; [reflexivity|]. split.
  { unfold outcome. destruct (raised (emission self)); eauto. }
  split; [apply length_alter|]. split.
  { intros g' Hne. apply list_lookup_alter_ne. congruence. }
  split; [rewrite list_lookup_alter_eq, HG; reflexivity|].
  split; [reflexivity|]. split; eexists; reflexivity.
Qed.

Lemma alter_new_graph (f : Graph -> Graph) (h : list Graph) (G : Graph) :
  alter f (length h) (h ++ [G]) = h ++ [f G].
Proof.
  rewrite <- (Nat.add_0_r (length h)) at 1. rewrite alter_app_r. reflexivity.
Qed.

Lemma Wf_emission_starts_with_own st attr b bs :
  exists ts, stated (emission (Wf st attr (Some (b :: bs)))) = own_triples st ++ ts.
Proof.
  cbn [emission]. rewrite bool_decide_eq_false_2 by (cbn; lia).
  destruct attr as [ns|].
  - unfold then_emit. cbn [raised stated]. rewrite <- app_assoc. eexists. reflexivity.
  - exists []. cbn [stated]. rewrite app_nil_r. reflexivity.
Qed.

(** X4: [prov_to_graph] of any record without a graph: either it raises for
    want of blocks and the store of graphs is as before, or the store has
    gained exactly one graph, at the end, every graph that existed being
    unchanged; the new graph is tagged with the record's [named_graph_uri],
    its statements start with the record's own triples, and it is the object
    returned when the call returns. *)
Theorem prov_to_graph_without_graph_allocates_one self h r h' :
  prov_to_graph self None h = (r, h') ->
  (r = Raise (ProvWorkflowException msg_no_block) /\ h' = h)
  \/ (exists G',
        h' = h ++ [G']
        /\ identifier G' = get_named_graph_uri self
        /\ (exists ts, triples G' = own_triples (state_of self) ++ ts)
        /\ (r = OK (length h) \/ exists e, r = Raise e)).
Proof.
  destruct self as [st|st attr [[|b bs]|]]; cbn [prov_to_graph].
  - rewrite ProvReporter_prov_to_graph_None. intros [= <- <-]. right.
    eexists. split; [reflexivity|]. split; [reflexivity|].
    split; [exists []; cbn; rewrite app_nil_r; reflexivity|left; reflexivity].
  - intros [= <- <-]. left. split; reflexivity.
  - rewrite bool_decide_eq_false_2 by (cbn; lia). intros H.
    assert (Hvia : prov_to_graph (Wf st attr (Some (b :: bs)))
                     (Some (length h)) (h ++ [mkGraph (named_graph_uri st) [] []])
                   = (r, h')).
    { rewrite <- H. cbn [prov_to_graph].
      rewrite bool_decide_eq_false_2 by (cbn; lia).
      unfold bind at 1. rewrite ProvReporter_prov_to_graph_Some.
      rewrite alter_new_graph. symmetry.
      unfold bind at 1. rewrite ProvReporter_prov_to_graph_None. reflexivity. }
    rewrite prov_to_graph_emission, alter_new_graph in Hvia.
    injection Hvia as <- <-. right. eexists. split; [reflexivity|].
    split; [reflexivity|]. split.
    + destruct (Wf_emission_starts_with_own st attr b bs) as [ts Hts].
      exists ts. exact Hts.
    + unfold outcome. destruct (raised _); eauto.
  - intros [= <- <-]. left. split; reflexivity.
Qed.

Lemma blocks_emission_until_raise ns st pre b post x :
  Forall (fun c => raised (emission c) = None) pre ->
  raised (emission b) = Some x ->
  raised (blocks_emission emission ns st (pre ++ b :: post)) = Some x
  /\ stated (blocks_emission emission ns st (pre ++ b :: post))
     = flat_map (fun c => stated (emission c) ++ [hadBlock_triple ns st c]) pre
       ++ stated (emission b).
Proof.
  intros Hpre Hb. induction Hpre as [|c pre Hc _ [IHr IHs]];
    cbn [app blocks_emission flat_map].
  - rewrite (then_emit_raised _ _ x Hb). split; [exact Hb|reflexivity].
  - unfold then_emit. rewrite Hc. cbn [raised stated].
    rewrite IHr, IHs. split; [reflexivity|].
    rewrite <- !app_assoc. reflexivity.
Qed.

(** X6: For a workflow on which an attribute [PROVWF] is bound: when the
    graph build of one block raises (a nested workflow without blocks, say),
    the workflow's build raises the same exception, and
    nothing is undone: the graph keeps the workflow's own triples, its
    [Workflow] type triple, the statements and [hadBlock] triples of the
    blocks before the failing one, and what the failing block had added;
    the failing block and the blocks after it get no [hadBlock] triple. *)
Theorem Workflow_prov_to_graph_block_failure st ns pre b post x g h G :
  Forall (fun c => raised (emission c) = None) pre ->
  raised (emission b) = Some x ->
  h !! g = Some G ->
  exists h' G',
    prov_to_graph (Wf st (Some ns) (Some (pre ++ b :: post))) (Some g) h
    = (Raise x, h')
    /\ h' !! g = Some G'
    /\ triples G'
       = triples G ++ own_triples st
         ++ [(URIRef (uri st), term_of RDF "type", term_of ns "Workflow")]
         ++ flat_map (fun c => stated (emission c) ++ [hadBlock_triple ns st c]) pre
         ++ stated (emission b).
Proof.
  intros Hpre Hb HG. rewrite prov_to_graph_emission.
  destruct (blocks_emission_until_raise ns st pre b post x Hpre Hb) as [Hr Hs].
  cbn [emission].
  rewrite bool_decide_eq_false_2 by (rewrite length_app; cbn; lia).
  do 2 eexists. split; [|split].
  - unfold outcome. rewrite then_emit_raised_None by reflexivity.
    rewrite Hr. reflexivity.
  - rewrite list_lookup_alter_eq, HG. reflexivity.
  - unfold after, then_emit. cbn [raised stated triples]. rewrite Hs.
    rewrite <- !app_assoc. reflexivity.
Qed.

(** ** The file backend *)

Lemma remove_from_absent old s :
  contains old s = false -> remove_from old 0 s = s.
Proof.
  induction s as [|c s IH]; [reflexivity|].
  cbn [contains remove_from]. intros H.
  apply orb_false_elim in H. destruct H as [Hp Hc].
  rewrite Hp. f_equal. apply IH, Hc.
Qed.

Lemma append_cons c s t : String c s +:+ t = String c (s +:+ t).
Proof. reflexivity. Qed.

Lemma append_empty t : EmptyString +:+ t = t.
Proof. reflexivity. Qed.

Ltac split_prefix :=
  rewrite ?append_cons, ?append_empty; cbn [String.prefix] in *;
  repeat match goal with
         | H : true = false |- _ => discriminate H
         | H : String.prefix EmptyString ?s = false |- _ => destruct s; discriminate H
         | |- false = false => reflexivity
         | |- context [ascii_dec ?a ?b] =>
             destruct (ascii_dec a b); try discriminate; subst
         | H : context [ascii_dec ?a ?b] |- _ =>
             destruct (ascii_dec a b); try discriminate; subst
         end.

(** No occurrence of [".ttl"] or [".trig"] starts inside [s] and runs
    into a suffix that begins with a dot. *)
Lemma prefix_ttl_app c s t :
  String.prefix ".ttl" (String c s) = false ->
  String.prefix ".ttl" (String c s +:+ String "." t) = false.
Proof.
  destruct s as [|c2 [|c3 [|c4 s]]]; intros H; split_prefix;
    try reflexivity; try congruence.
Qed.

Lemma prefix_trig_app c s t :
  String.prefix ".trig" (String c s) = false ->
  String.prefix ".trig" (String c s +:+ String "." t) = false.
Proof.
  destruct s as [|c2 [|c3 [|c4 [|c5 s]]]]; intros H; split_prefix;
    try reflexivity; try congruence.
Qed.

Lemma contains_ttl_app s t :
  contains ".ttl" s = false -> contains ".ttl" (String "." t) = false ->
  contains ".ttl" (s +:+ String "." t) = false.
Proof.
  intros Hs Ht. induction s as [|c s IH]; [exact Ht|].
  cbn [contains] in Hs. apply orb_false_elim in Hs. destruct Hs as [Hp Hc].
  change (String c s +:+ String "." t) with (String c (s +:+ String "." t)).
  cbn [contains].
  change (String c (s +:+ String "." t)) with (String c s +:+ String "." t).
  rewrite (prefix_ttl_app c s t Hp). apply IH, Hc.
Qed.

Lemma remove_ttl_suffix s :
  contains ".ttl" s = false -> remove_from ".ttl" 0 (s +:+ ".ttl") = s.
Proof.
  induction s as [|c s IH]; [reflexivity|]. intros Hs.
  cbn [contains] in Hs. apply orb_false_elim in Hs. destruct Hs as [Hp Hc].
  change (String c s +:+ ".ttl") with (String c (s +:+ ".ttl")).
  cbn [remove_from].
  change (String c (s +:+ ".ttl")) with (String c s +:+ ".ttl").
  rewrite (prefix_ttl_app c s "ttl" Hp). f_equal. apply IH, Hc.
Qed.

Lemma remove_trig_suffix s :
  contains ".trig" s = false -> remove_from ".trig" 0 (s +:+ ".trig") = s.
Proof.
  induction s as [|c s IH]; [reflexivity|]. intros Hs.
  cbn [contains] in Hs. apply orb_false_elim in Hs. destruct Hs as [Hp Hc].
  change (String c s +:+ ".trig") with (String c (s +:+ ".trig")).
  cbn [remove_from].
  change (String c (s +:+ ".trig")) with (String c s +:+ ".trig").
  rewrite (prefix_trig_app c s "trig" Hp). f_equal. apply IH, Hc.
Qed.

(** X7: For a base path in which neither [".ttl"] nor [".trig"] occurs, the
    file backend called with the base path itself, or with the base path
    followed by either extension, writes once, to the base path followed by
    [".ttl"] when there is no target and by [".trig"] when there is one, in
    the format that goes with it, and changes no graph. *)
Theorem _persist_to_file_destination base given g n w :
  contains ".ttl" base = false -> contains ".trig" base = false ->
  given = base \/ given = base +:+ ".ttl" \/ given = base +:+ ".trig" ->
  _persist_to_file g given n w
  = (OK tt,
     mkWorld (graphs w)
       (trace w ++ [FileWrite (base +:+ extension_for n) (format_for n) g
                              (graphs w !! g)])).
Proof.
  intros Httl Htrig Hgiven.
  assert (Hstrip : replace_with_empty ".trig" (replace_with_empty ".ttl" given)
                   = base).
  { unfold replace_with_empty. destruct Hgiven as [->|[->| ->]].
    - rewrite (remove_from_absent _ _ Httl). apply remove_from_absent, Htrig.
    - rewrite (remove_ttl_suffix _ Httl). apply remove_from_absent, Htrig.
    - rewrite (remove_from_absent ".ttl" (base +:+ ".trig"))
        by (apply contains_ttl_app; [exact Httl|reflexivity]).
      apply remove_trig_suffix, Htrig. }
  unfold _persist_to_file. rewrite Hstrip.
  destruct n; reflexivity.
Qed.

(** ** The remote backends *)

Lemma differs_from_null_true n :
  n <> Some (Str "null") -> differs_from_null n = true.
Proof.
  intros Hn. destruct n as [[s0|s0]|]; cbn; try reflexivity.
  destruct (String.eqb s0 "null") eqn:E; [|reflexivity].
  apply String.eqb_eq in E. subst s0. destruct Hn. reflexivity.
Qed.

Lemma _persist_to_graphdb_eq g n w :
  n <> Some (Str "null") ->
  _persist_to_graphdb g n w
  = (match requests_post graphdb_url (graphdb_context n)
             (serialize turtle (Some "utf-8") (graphs w !! g))
             "text/turtle" graphdb_auth with
     | Raise e => Raise e
     | OK resp =>
         if bool_decide (status_code resp ≠ 204%Z)
         then Raise (Exception ("GraphDB says: " +:+ text resp))
         else OK tt
     end,
     mkWorld (graphs w)
       (trace w ++ [HttpPost graphdb_url (graphdb_context n) g
                      (serialize turtle (Some "utf-8") (graphs w !! g))
                      "text/turtle" graphdb_auth])).
Proof.
  intros Hn. unfold _persist_to_graphdb.
  rewrite (differs_from_null_true n Hn).
  unfold bind, read_graph, emit, raise, ret, graphdb_url, graphdb_auth,
    graphdb_context.
  destruct n as [x|]; cbn [graphs trace];
    (destruct (requests_post _ _ _ _ _) as [resp|e];
     [destruct (bool_decide (status_code resp ≠ 204%Z))|]); reflexivity.
Qed.

(** X8: With the plain string ["null"] as target, [_persist_to_graphdb] fails
    on its unassigned [context] variable: no request is sent and nothing
    changes. *)
Theorem _persist_to_graphdb_null_string g w :
  _persist_to_graphdb g (Some (Str "null")) w
  = (Raise (UnboundLocalError
              "local variable 'context' referenced before assignment"), w).
Proof. reflexivity. Qed.

(** X9: For every other target, [_persist_to_graphdb] sends exactly one POST,
    to [<GRAPH_DB_SYSTEM_URI>/repositories/<GRAPH_DB_REPO_ID>/statements],
    with the Turtle bytes of the graph, content type [text/turtle], and as
    [context] the word [null] when there is no target and the target between
    angle brackets otherwise; it changes no graph.  It returns exactly when
    the answer has status 204; with any other status it raises an exception
    carrying the text of the answer; an exception of the transport is passed
    on. *)
Theorem _persist_to_graphdb_outcome g n w :
  n <> Some (Str "null") ->
  exists r,
    _persist_to_graphdb g n w
    = (r, mkWorld (graphs w)
            (trace w ++ [HttpPost graphdb_url (graphdb_context n) g
                           (serialize turtle (Some "utf-8") (graphs w !! g))
                           "text/turtle" graphdb_auth]))
    /\ (r = OK tt
        <-> exists resp,
              requests_post graphdb_url (graphdb_context n)
                (serialize turtle (Some "utf-8") (graphs w !! g))
                "text/turtle" graphdb_auth = OK resp
              /\ status_code resp = 204%Z)
    /\ (forall resp,
          requests_post graphdb_url (graphdb_context n)
            (serialize turtle (Some "utf-8") (graphs w !! g))
            "text/turtle" graphdb_auth = OK resp ->
          status_code resp <> 204%Z ->
          r = Raise (Exception ("GraphDB says: " +:+ text resp)))
    /\ (forall e,
          requests_post graphdb_url (graphdb_context n)
            (serialize turtle (Some "utf-8") (graphs w !! g))
            "text/turtle" graphdb_auth = Raise e ->
          r = Raise e).
Proof.
  intros Hn. rewrite (_persist_to_graphdb_eq g n w Hn).
  eexists. split; [reflexivity|].
  destruct (requests_post _ _ _ _ _) as [resp|e].
  - destruct (bool_decide (status_code resp ≠ 204%Z)) eqn:Hs.
    + apply bool_decide_eq_true_1 in Hs. split; [|split].
      * split; [discriminate|]. intros (resp' & [= <-] & H204). contradiction.
      * intros resp' [= <-] _. reflexivity.
      * discriminate.
    + apply bool_decide_eq_false_1 in Hs.
      assert (H204 : status_code resp = 204%Z).
      { destruct (decide (status_code resp = 204%Z)); [assumption|contradiction]. }
      split; [|split].
      * split; [eauto|reflexivity].
      * intros resp' [= <-] Hne. contradiction.
      * discriminate.
  - split; [|split].
    + split; [discriminate|]. intros (resp & Hr & _). discriminate.
    + discriminate.
    + intros e' [= <-]. reflexivity.
Qed.

(** X10: With none of the four environment variables set, the request goes to
    the local GraphDB, repository [provwftesting], with empty user name and
    password. *)
Theorem _persist_to_graphdb_default_endpoint g n w :
  environ "GRAPH_DB_SYSTEM_URI" = None -> environ "GRAPH_DB_REPO_ID" = None ->
  environ "GRAPHDB_USR" = None -> environ "GRAPHDB_PWD" = None ->
  n <> Some (Str "null") ->
  trace (snd (_persist_to_graphdb g n w))
  = trace w ++ [HttpPost "http://localhost:7200/repositories/provwftesting/statements"
                  (graphdb_context n) g
                  (serialize turtle (Some "utf-8") (graphs w !! g))
                  "text/turtle" (EmptyString, EmptyString)].
Proof.
  intros H1 H2 H3 H4 Hn. rewrite (_persist_to_graphdb_eq g n w Hn).
  unfold graphdb_url, graphdb_auth, environ_get. rewrite H1, H2, H3, H4.
  reflexivity.
Qed.

(** X11: [_persist_to_sop] issues exactly one update, the [INSERT DATA] query
    made from the target and the graph, and changes no graph.  It returns
    exactly when the answer is [ok]; otherwise it raises an exception
    carrying the text of the answer. *)
Theorem _persist_to_sop_outcome g n w :
  exists r,
    _persist_to_sop g n w
    = (r, mkWorld (graphs w)
            (trace w ++ [SopUpdate n g
                           (make_sparql_insert_data n (graphs w !! g))]))
    /\ (r = OK tt
        <-> exists resp,
              query_sop_sparql n (make_sparql_insert_data n (graphs w !! g)) true
              = OK resp /\ ok resp = true)
    /\ (forall resp,
          query_sop_sparql n (make_sparql_insert_data n (graphs w !! g)) true
          = OK resp ->
          ok resp = false ->
          r = Raise (Exception ("SOP HTTP error: " +:+ text resp))).
Proof.
  unfold _persist_to_sop, bind, read_graph, emit, raise, ret. cbn [graphs trace].
  destruct (query_sop_sparql _ _ _) as [resp|e].
  - destruct (ok resp) eqn:Hok; cbn [negb];
      (eexists; split; [reflexivity|]); split.
    + split; [eauto|reflexivity].
    + intros resp' [= <-] Hne. congruence.
    + split; [discriminate|]. intros (resp' & [= <-] & Ht). congruence.
    + intros resp' [= <-] _. reflexivity.
  - eexists. split; [reflexivity|]. split.
    + split; [discriminate|]. intros (resp & Hr & _). discriminate.
    + discriminate.
Qed.

(** ** The dispatcher *)



(** X13: Of several unknown names, [persist] reports the first one in the list. *)
Theorem persist_reports_first_unknown_method cls_or_self g pre m post path n w :
  (forall k, k ∈ pre -> k ∈ known_methods) ->
  m ∉ known_methods ->
  persist cls_or_self g (MethodsList (pre ++ m :: post)) path n w
  = (Raise (ProvWorkflowException (msg_unknown_method m)), w).
Proof.
  intros Hpre Hm.
  assert (Hc : check_methods (pre ++ m :: post) w
               = (Raise (ProvWorkflowException (msg_unknown_method m)), w)).
  { induction pre as [|k pre IH]; cbn [app check_methods].
    - rewrite (bool_decide_eq_true_2 _ Hm). reflexivity.
    - rewrite bool_decide_eq_false_2.
      + apply IH. intros k' Hk'. apply Hpre. right. exact Hk'.
      + intros Hk. apply Hk, Hpre. left. }
  unfold persist. unfold bind at 1. cbn [normalise_methods]. rewrite Hc.
  reflexivity.
Qed.

Lemma _persist_to_file_eq g path n w :
  _persist_to_file g path n w
  = (OK tt,
     mkWorld (graphs w)
       (trace w ++ [FileWrite
                      (replace_with_empty ".trig" (replace_with_empty ".ttl" path)
                       +:+ extension_for n)
                      (format_for n) g (graphs w !! g)])).
Proof. unfold _persist_to_file. destruct n; reflexivity. Qed.

(** X14: A failure is not undone and stops the chain: when GraphDB answers with
    a status other than 204, [persist] raises with the text of the answer;
    the file, if [file] was selected, has been written before the request;
    the SPARQL endpoint is not contacted and no string is returned, whether
    or not [sop] and [string] were selected. *)
Theorem persist_graphdb_failure_stops_the_chain g ms path n w resp :
  (forall m, m ∈ ms -> m ∈ known_methods) ->
  "graphdb" ∈ ms ->
  n <> Some (Str "null") ->
  requests_post graphdb_url (graphdb_context n)
    (serialize turtle (Some "utf-8") (graphs w !! g)) "text/turtle" graphdb_auth
  = OK resp ->
  status_code resp <> 204%Z ->
  persist OnClass (Some g) (MethodsList ms) path n w
  = (Raise (Exception ("GraphDB says: " +:+ text resp)),
     mkWorld (graphs w)
       (trace w
        ++ (if bool_decide ("file" ∈ ms)
            then [FileWrite
                    (replace_with_empty ".trig" (replace_with_empty ".ttl" path)
                     +:+ extension_for n)
                    (format_for n) g (graphs w !! g)]
            else [])
        ++ [HttpPost graphdb_url (graphdb_context n) g
              (serialize turtle (Some "utf-8") (graphs w !! g))
              "text/turtle" graphdb_auth])).
Proof.
  intros Hall Hg Hn Hresp Hs.
  rewrite persist_OnClass_Some by exact Hall.
  unfold dispatch. cbn [normalise_methods].
  rewrite (bool_decide_eq_true_2 _ Hg).
  destruct (bool_decide ("file" ∈ ms)); unfold when.
  - unfold bind at 1. rewrite _persist_to_file_eq.
    unfold bind at 1. rewrite (_persist_to_graphdb_eq g n _ Hn).
    cbn [graphs trace]. rewrite Hresp.
    rewrite (bool_decide_eq_true_2 _ Hs). rewrite <- app_assoc. reflexivity.
  - unfold bind at 1. unfold ret at 1.
    unfold bind at 1. rewrite (_persist_to_graphdb_eq g n _ Hn).
    rewrite Hresp. rewrite (bool_decide_eq_true_2 _ Hs). reflexivity.
Qed.

(** X15: With [string] alone and a named-graph target, [persist] returns the
    TriG text when the serialiser yields [bytes]; when it yields a [str],
    the [.decode()] applied to it raises [AttributeError]. *)
Theorem persist_string_with_target_needs_bytes g path x w :
  persist OnClass (Some g) MethodsNone path (Some x) w
  = match serialize trig None (graphs w !! g) with
    | TBytes b => (OK (Some b), w)
    | TStr _ =>
        (Raise (AttributeError "'str' object has no attribute 'decode'"), w)
    end.
Proof.
  rewrite persist_OnClass_Some.
  2:{ intros m Hm. apply list_elem_of_singleton in Hm. subst m.
      apply (bool_decide_unpack _). vm_compute. exact I. }
  unfold dispatch. cbn [normalise_methods].
  assert (Hfile : bool_decide ("file" ∈ ["string"]) = false) by (vm_compute; reflexivity).
  assert (Hgdb : bool_decide ("graphdb" ∈ ["string"]) = false) by (vm_compute; reflexivity).
  assert (Hsop : bool_decide ("sop" ∈ ["string"]) = false) by (vm_compute; reflexivity).
  assert (Hstr : bool_decide ("string" ∈ ["string"]) = true) by (vm_compute; reflexivity).
  rewrite Hfile, Hgdb, Hsop, Hstr.
  unfold when, bind, ret, read_graph, decode, raise.
  destruct (serialize trig None (graphs w !! g)); destruct w; reflexivity.
Qed.


(** ** The string backend and the target of a workflow *)

Lemma persist_string_alone g methods path n w :
  normalise_methods methods = ["string"] ->
  persist OnClass (Some g) methods path n w
  = match n with
    | None => (OK (Some (text_of (serialize turtle None (graphs w !! g)))), w)
    | Some _ =>
        match serialize trig None (graphs w !! g) with
        | TBytes b => (OK (Some b), w)
        | TStr _ =>
            (Raise (AttributeError "'str' object has no attribute 'decode'"), w)
        end
    end.
Proof.
  intros Hms. rewrite persist_OnClass_Some.
  2:{ rewrite Hms. intros m Hm. apply list_elem_of_singleton in Hm. subst m.
      apply (bool_decide_unpack _). vm_compute. exact I. }
  unfold dispatch. rewrite Hms.
  assert (Hfile : bool_decide ("file" ∈ ["string"]) = false) by (vm_compute; reflexivity).
  assert (Hgdb : bool_decide ("graphdb" ∈ ["string"]) = false) by (vm_compute; reflexivity).
  assert (Hsop : bool_decide ("sop" ∈ ["string"]) = false) by (vm_compute; reflexivity).
  assert (Hstr : bool_decide ("string" ∈ ["string"]) = true) by (vm_compute; reflexivity).
  rewrite Hfile, Hgdb, Hsop, Hstr.
  unfold when, bind, ret, read_graph, decode, raise.
  destruct n as [x|].
  - destruct (serialize trig None (graphs w !! g)); destruct w; reflexivity.
  - destruct (serialize turtle None (graphs w !! g)); destruct w; reflexivity.
Qed.

(** C6, as the code behaves: with [string] selected and a named-graph
    target, a serialiser that yields a [str] for TriG makes [persist] raise
    [AttributeError] at the [.decode()] of that branch, where the claim has
    it return the text; nothing else has happened by then.  The sibling
    branch, without a target, returns the Turtle text whether the serialiser
    yields a [str] or [bytes]: its result goes through [type(x) is str]. *)
Theorem persist_string_selected_raises_on_str g path x w s0 :
  serialize trig None (graphs w !! g) = TStr s0 ->
  "string" ∈ normalise_methods (MethodsStr "string")
  /\ persist OnClass (Some g) (MethodsStr "string") path (Some x) w
     = (Raise (AttributeError "'str' object has no attribute 'decode'"), w)
  /\ persist OnClass (Some g) (MethodsStr "string") path None w
     = (OK (Some (text_of (serialize turtle None (graphs w !! g)))), w).
Proof.
  intros Hstr. split; [left|]. split.
  - rewrite (persist_string_alone g (MethodsStr "string") path (Some x) w)
      by reflexivity.
    rewrite Hstr. reflexivity.
  - apply persist_string_alone. reflexivity.
Qed.


(** A workflow as its constructor leaves it, without a [PROVWF] attribute,
    never gets [persist] to a backend: the graph build raises first. *)
Lemma persist_on_unbound_workflow_raises st bs g methods path n w :
  exists e w',
    persist (OnInstance (Wf st None (Some bs))) g methods path n w = (Raise e, w')
    /\ trace w' = trace w.
Proof.
  destruct (check_methods_cases (normalise_methods methods) w) as [Hc|[m Hc]].
  - pose proof (check_methods_OK_known _ _ _ Hc) as Hall.
    rewrite (persist_OnInstance _ _ _ _ _ _ Hall).
    destruct bs as [|b bs'].
    + do 2 eexists. split; reflexivity.
    + rewrite Workflow_prov_to_graph_unbound.
      do 2 eexists. split; reflexivity.
  - unfold persist. unfold bind at 1. rewrite Hc.
    do 2 eexists. split; reflexivity.
Qed.


End Model.

(** * The statements at concrete inputs

    The collaborators are instantiated with [ex_serialize] and friends: a
    serialiser that returns the name of the format, a GraphDB that answers
    204 and a SPARQL endpoint that answers 200. *)


(** A workflow with three blocks, built by the constructors: the
    graph build raises, and the new graph holds the two base triples of the
    workflow only. *)
Example Workflow_three_blocks_raises :
  exists w,
    Workflow_init ex_PWFS ex_env (Some (Str "http://example.com/wf")) None
      (Some [ex_block "a"; ex_block "b"; ex_block "c"]) = OK w
    /\ prov_to_graph ex_PROVWF ex_PWFS w None []
       = (Raise (AttributeError "'Workflow' object has no attribute 'PROVWF'"),
          [mkGraph None (own_bindings ex_PROVWF ex_PWFS)
             [(URIRef "http://example.com/wf", term_of RDF "type",
               term_of ex_PROVWF "ProvReporter");
              (URIRef "http://example.com/wf", term_of DCTERMS "created",
               Lit ex_created)]]).
Proof. eexists. split; reflexivity. Qed.

(** The same workflow with the attribute bound: the graph build returns,
    and the graph holds three [hadBlock] triples among its fifteen
    statements (two base triples and the type triple of the workflow, and
    for each block its three triples and one [hadBlock]). *)
Example Workflow_three_blocks_bound :
  match prov_to_graph ex_PROVWF ex_PWFS
          (Wf (mkProvReporter "Workflow" "http://example.com/wf" None None None
                 None ex_created)
              (Some ex_PROVWF)
              (Some [ex_block "a"; ex_block "b"; ex_block "c"]))
          None [] with
  | (OK 0, [G]) =>
      length (filter (fun t : Triple => snd (fst t) = term_of ex_PROVWF "hadBlock")
                     (triples G)) = 3
      /\ length (triples G) = 15
  | _ => False
  end.
Proof. vm_compute. split; reflexivity. Qed.

(** C4 at [methods=["file", "bogus"]]: an error, and no file. *)
Lemma persist_unknown_method_witness :
  (exists m, m ∈ normalise_methods (MethodsList ["file"; "bogus"])
             /\ (m ∉ known_methods))
  /\ exists m,
       m ∈ normalise_methods (MethodsList ["file"; "bogus"])
       /\ (m ∉ known_methods)
       /\ persist ex_PROVWF ex_PWFS ex_serialize ex_environ ex_requests_post
            ex_make_sparql_insert_data ex_query_sop_sparql
            OnClass (Some 0) (MethodsList ["file"; "bogus"]) "prov_reporter"
            None ex_world
          = (Raise (ProvWorkflowException
                      ("A persistent method you selected, " +:+ m +:+
                       ", is not in the list of known methods, 'graphdb', 'sop', 'file', 'string'")),
             ex_world).
Proof.
  assert (Hbad : exists m, m ∈ normalise_methods (MethodsList ["file"; "bogus"])
                           /\ (m ∉ known_methods)).
  { exists "bogus". split.
    - apply (bool_decide_unpack _). vm_compute. exact I.
    - apply (bool_decide_unpack _). vm_compute. exact I. }
  split; [exact Hbad|].
  apply (persist_unknown_method_no_effect ex_PROVWF ex_PWFS ex_serialize
           ex_environ ex_requests_post ex_make_sparql_insert_data
           ex_query_sop_sparql OnClass (Some 0) (MethodsList ["file"; "bogus"])
           "prov_reporter" None ex_world Hbad).
Defined.

(** C5 as stated fails: on the class, without a graph, an unknown method
    name is reported first, and the message is not the one about the
    graph. *)
Lemma persist_on_class_reports_unknown_method_first :
  fst (persist ex_PROVWF ex_PWFS ex_serialize ex_environ ex_requests_post
         ex_make_sparql_insert_data ex_query_sop_sparql
         OnClass None (MethodsStr "bogus") "prov_reporter" None ex_world)
  = Raise (ProvWorkflowException (msg_unknown_method "bogus"))
  /\ fst (persist ex_PROVWF ex_PWFS ex_serialize ex_environ ex_requests_post
            ex_make_sparql_insert_data ex_query_sop_sparql
            OnClass None (MethodsStr "bogus") "prov_reporter" None ex_world)
     <> Raise (ProvWorkflowException msg_no_graph).
Proof. split; [reflexivity|discriminate]. Qed.

Lemma ex_file_string_known :
  forall m, m ∈ normalise_methods (MethodsList ["file"; "string"]) ->
            m ∈ known_methods.
Proof.
  intros m Hm. cbn in Hm.
  apply elem_of_cons in Hm. destruct Hm as [->|Hm].
  - apply (bool_decide_unpack _). vm_compute. exact I.
  - apply list_elem_of_singleton in Hm. subst m.
    apply (bool_decide_unpack _). vm_compute. exact I.
Defined.

(** C5, amended, at [methods=["file", "string"]]. *)
Lemma persist_on_class_witness :
  (forall m, m ∈ normalise_methods (MethodsList ["file"; "string"]) ->
             m ∈ known_methods)
  /\ persist ex_PROVWF ex_PWFS ex_serialize ex_environ ex_requests_post
       ex_make_sparql_insert_data ex_query_sop_sparql
       OnClass None (MethodsList ["file"; "string"]) "prov_reporter" None ex_world
     = (Raise (ProvWorkflowException msg_no_graph), ex_world)
  /\ forall g r w',
       persist ex_PROVWF ex_PWFS ex_serialize ex_environ ex_requests_post
         ex_make_sparql_insert_data ex_query_sop_sparql
         OnClass (Some g) (MethodsList ["file"; "string"]) "prov_reporter" None
         ex_world = (r, w') ->
       persisted ex_serialize ex_make_sparql_insert_data g None ex_world w'
       /\ forall v, r = OK v ->
                    v = returned ex_serialize g None
                          (normalise_methods (MethodsList ["file"; "string"]))
                          ex_world.
Proof.
  split; [exact ex_file_string_known|].
  apply (persist_on_class ex_PROVWF ex_PWFS ex_serialize ex_environ
           ex_requests_post ex_make_sparql_insert_data ex_query_sop_sparql
           (MethodsList ["file"; "string"]) "prov_reporter" None ex_world
           ex_file_string_known).
Defined.

(** At [methods=["file", "string"]] on the class: the call returns the
    Turtle text. *)
Lemma persist_returns_string_witness :
  persist ex_PROVWF ex_PWFS ex_serialize ex_environ ex_requests_post
    ex_make_sparql_insert_data ex_query_sop_sparql
    OnClass (Some 0) (MethodsList ["file"; "string"]) "prov_reporter" None ex_world
  = (OK (Some "turtle"),
     mkWorld [ex_graph] [FileWrite "prov_reporter.ttl" turtle 0 (Some ex_graph)])
  /\ (is_Some (Some "turtle")
      <-> "string" ∈ normalise_methods (MethodsList ["file"; "string"])).
Proof.
  split; [reflexivity|].
  apply (persist_returns_string_iff_selected ex_PROVWF ex_PWFS ex_serialize
           ex_environ ex_requests_post ex_make_sparql_insert_data
           ex_query_sop_sparql OnClass (Some 0) (MethodsList ["file"; "string"])
           "prov_reporter" None ex_world (Some "turtle")
           (mkWorld [ex_graph]
                    [FileWrite "prov_reporter.ttl" turtle 0 (Some ex_graph)])).
  reflexivity.
Defined.

(** Without [string] in the selection the same call returns [None]. *)
Example persist_file_only_returns_None :
  fst (persist ex_PROVWF ex_PWFS ex_serialize ex_environ ex_requests_post
         ex_make_sparql_insert_data ex_query_sop_sparql
         OnClass (Some 0) (MethodsList ["file"; "graphdb"; "sop"])
         "prov_reporter" None ex_world)
  = OK None.
Proof. reflexivity. Qed.

(** C7 as stated fails: the record has a [named_graph_uri], the caller
    passes another one, and the SPARQL backend receives the record's. *)
Lemma persist_on_instance_record_target_wins :
  trace (snd (persist ex_PROVWF ex_PWFS ex_serialize ex_environ ex_requests_post
                ex_make_sparql_insert_data ex_query_sop_sparql
                (OnInstance (Plain ex_record)) None (MethodsStr "sop")
                "prov_reporter" (Some (Str "http://example.com/graph/caller"))
                ex_world))
  = [SopUpdate (Some (Ref "http://example.com/graph/record")) 1 "INSERT DATA {}"]
  /\ str_of (Ref "http://example.com/graph/record")
     <> str_of (Str "http://example.com/graph/caller").
Proof. split; [reflexivity|discriminate]. Qed.

(** C7, amended, at that same call. *)
Lemma persist_on_instance_witness :
  (forall m, m ∈ normalise_methods (MethodsStr "sop") -> m ∈ known_methods)
  /\ exists r w',
       persist ex_PROVWF ex_PWFS ex_serialize ex_environ ex_requests_post
         ex_make_sparql_insert_data ex_query_sop_sparql
         (OnInstance (Plain ex_record)) None (MethodsStr "sop") "prov_reporter"
         (Some (Str "http://example.com/graph/caller")) ex_world = (r, w')
       /\ exists built h1,
            prov_to_graph ex_PROVWF ex_PWFS (Plain ex_record) None (graphs ex_world)
            = (built, h1)
            /\ graphs w' = h1
            /\ match built with
               | OK gr =>
                   gr = length (graphs ex_world)
                   /\ persisted ex_serialize ex_make_sparql_insert_data gr
                        (instance_target (Plain ex_record)
                           (Some (Str "http://example.com/graph/caller")))
                        (mkWorld h1 (trace ex_world)) w'
                   /\ forall v, r = OK v ->
                        v = returned ex_serialize gr
                              (instance_target (Plain ex_record)
                                 (Some (Str "http://example.com/graph/caller")))
                              (normalise_methods (MethodsStr "sop")) w'
               | Raise e => r = Raise e /\ trace w' = trace ex_world
               end
            /\ (forall t, get_named_graph_uri (Plain ex_record) = Some t ->
                          instance_target (Plain ex_record)
                            (Some (Str "http://example.com/graph/caller"))
                          = Some (Ref t))
            /\ (get_named_graph_uri (Plain ex_record) = None ->
                instance_target (Plain ex_record)
                  (Some (Str "http://example.com/graph/caller"))
                = Some (Str "http://example.com/graph/caller")).
Proof.
  assert (Hall : forall m, m ∈ normalise_methods (MethodsStr "sop") ->
                           m ∈ known_methods).
  { intros m Hm. apply list_elem_of_singleton in Hm. subst m.
    apply (bool_decide_unpack _). vm_compute. exact I. }
  split; [exact Hall|].
  pose (res := persist ex_PROVWF ex_PWFS ex_serialize ex_environ ex_requests_post
                 ex_make_sparql_insert_data ex_query_sop_sparql
                 (OnInstance (Plain ex_record)) None (MethodsStr "sop")
                 "prov_reporter" (Some (Str "http://example.com/graph/caller"))
                 ex_world).
  exists (fst res), (snd res). split; [apply surjective_pairing|].
  apply (persist_on_instance ex_PROVWF ex_PWFS ex_serialize ex_environ
           ex_requests_post ex_make_sparql_insert_data ex_query_sop_sparql
           (Plain ex_record) None (MethodsStr "sop") "prov_reporter"
           (Some (Str "http://example.com/graph/caller")) ex_world
           (fst res) (snd res) Hall).
  apply surjective_pairing.
Defined.

(** * The further properties at concrete inputs *)

Lemma ProvReporter_init_generated_uris_differ_witness :
  ProvReporter_init ex_PWFS "Block" ex_env None None None None
  = OK (mkProvReporter "Block" (ex_PWFS +:+ uuid1 ex_env) None None None None
          ex_created)
  /\ uri (mkProvReporter "Block" (ex_PWFS +:+ uuid1 ex_env) None None None None
            ex_created)
     <> uri (mkProvReporter "Entity" (ex_PWFS +:+ uuid1 ex_env') None None None
               None (mkLiteral (now ex_env') (Some (XSD +:+ "dateTimeStamp")))).
Proof.
  split; [reflexivity|].
  apply (ProvReporter_init_generated_uris_differ ex_PWFS "Block" "Entity"
           ex_env ex_env' None None None None None None).
  - reflexivity.
  - reflexivity.
  - discriminate.
Defined.

Lemma prov_to_graph_only_appends_witness :
  exists r h' G',
    prov_to_graph ex_PROVWF ex_PWFS (ex_block "a") (Some 0) [ex_graph] = (r, h')
    /\ (r = OK 0 \/ exists e, r = Raise e)
    /\ length h' = length [ex_graph]
    /\ (forall g', g' <> 0 -> h' !! g' = [ex_graph] !! g')
    /\ h' !! 0 = Some G'
    /\ identifier G' = identifier ex_graph
    /\ (exists bs, namespaces G' = namespaces ex_graph ++ bs)
    /\ (exists ts, triples G' = triples ex_graph ++ ts).
Proof.
  apply (prov_to_graph_only_appends_to_given_graph ex_PROVWF ex_PWFS
           (ex_block "a") 0 [ex_graph] ex_graph).
  reflexivity.
Defined.

Lemma prov_to_graph_without_graph_witness :
  (fst (prov_to_graph ex_PROVWF ex_PWFS (Plain ex_record) None [ex_graph])
   = Raise (ProvWorkflowException msg_no_block)
   /\ snd (prov_to_graph ex_PROVWF ex_PWFS (Plain ex_record) None [ex_graph])
      = [ex_graph])
  \/ (exists G',
        snd (prov_to_graph ex_PROVWF ex_PWFS (Plain ex_record) None [ex_graph])
        = [ex_graph] ++ [G']
        /\ identifier G' = get_named_graph_uri (Plain ex_record)
        /\ (exists ts, triples G'
                       = own_triples ex_PROVWF (state_of (Plain ex_record)) ++ ts)
        /\ (fst (prov_to_graph ex_PROVWF ex_PWFS (Plain ex_record) None [ex_graph])
            = OK (length [ex_graph])
            \/ exists e,
                 fst (prov_to_graph ex_PROVWF ex_PWFS (Plain ex_record) None
                        [ex_graph]) = Raise e)).
Proof.
  apply (prov_to_graph_without_graph_allocates_one ex_PROVWF ex_PWFS
           (Plain ex_record) [ex_graph]).
  apply surjective_pairing.
Defined.

Lemma Workflow_prov_to_graph_aggregates_witness :
  exists h' G',
    prov_to_graph ex_PROVWF ex_PWFS
      (Wf ex_workflow_state (Some ex_PROVWF) (Some [ex_block "a"; ex_block "b"]))
      (Some 0) [ex_graph] = (OK 0, h')
    /\ h' !! 0 = Some G'
    /\ triples G'
       = triples ex_graph ++ own_triples ex_PROVWF ex_workflow_state
         ++ [(URIRef (uri ex_workflow_state), term_of RDF "type",
              term_of ex_PROVWF "Workflow")]
         ++ flat_map (fun c => stated (emission ex_PROVWF ex_PWFS c)
                               ++ [hadBlock_triple ex_PROVWF ex_workflow_state c])
                     [ex_block "a"; ex_block "b"].
Proof.
  apply (Workflow_prov_to_graph_aggregates ex_PROVWF ex_PWFS ex_workflow_state
           ex_PROVWF (ex_block "a") [ex_block "b"] 0 [ex_graph] ex_graph).
  - repeat constructor.
  - reflexivity.
Defined.

Lemma Workflow_prov_to_graph_block_failure_witness :
  exists h' G',
    prov_to_graph ex_PROVWF ex_PWFS
      (Wf ex_workflow_state (Some ex_PROVWF)
          (Some ([ex_block "a"]
                 ++ Wf ex_workflow_state None (Some []) :: [ex_block "c"])))
      (Some 0) [ex_graph]
    = (Raise (ProvWorkflowException msg_no_block), h')
    /\ h' !! 0 = Some G'
    /\ triples G'
       = triples ex_graph ++ own_triples ex_PROVWF ex_workflow_state
         ++ [(URIRef (uri ex_workflow_state), term_of RDF "type",
              term_of ex_PROVWF "Workflow")]
         ++ flat_map (fun c => stated (emission ex_PROVWF ex_PWFS c)
                               ++ [hadBlock_triple ex_PROVWF ex_workflow_state c])
                     [ex_block "a"]
         ++ stated (emission ex_PROVWF ex_PWFS
                      (Wf ex_workflow_state None (Some []))).
Proof.
  apply (Workflow_prov_to_graph_block_failure ex_PROVWF ex_PWFS
           ex_workflow_state ex_PROVWF [ex_block "a"]
           (Wf ex_workflow_state None (Some [])) [ex_block "c"]
           (ProvWorkflowException msg_no_block) 0 [ex_graph] ex_graph).
  - repeat constructor.
  - reflexivity.
  - reflexivity.
Defined.

Lemma _persist_to_file_destination_witness :
  _persist_to_file 0 "results/run1.ttl" (Some (Str "http://example.com/graph/1"))
    ex_world
  = (OK tt,
     mkWorld (graphs ex_world)
       (trace ex_world
        ++ [FileWrite ("results/run1"
                       +:+ extension_for (Some (Str "http://example.com/graph/1")))
              (format_for (Some (Str "http://example.com/graph/1"))) 0
              (graphs ex_world !! 0)])).
Proof.
  apply (_persist_to_file_destination "results/run1" "results/run1.ttl" 0
           (Some (Str "http://example.com/graph/1")) ex_world).
  - reflexivity.
  - reflexivity.
  - right. left. reflexivity.
Defined.

Lemma _persist_to_graphdb_outcome_witness :
  exists r,
    _persist_to_graphdb ex_serialize ex_environ ex_requests_post 0 None ex_world
    = (r, mkWorld (graphs ex_world)
            (trace ex_world
             ++ [HttpPost (graphdb_url ex_environ) (graphdb_context None) 0
                   (ex_serialize turtle (Some "utf-8") (graphs ex_world !! 0))
                   "text/turtle" (graphdb_auth ex_environ)]))
    /\ (r = OK tt
        <-> exists resp,
              ex_requests_post (graphdb_url ex_environ) (graphdb_context None)
                (ex_serialize turtle (Some "utf-8") (graphs ex_world !! 0))
                "text/turtle" (graphdb_auth ex_environ) = OK resp
              /\ status_code resp = 204%Z)
    /\ (forall resp,
          ex_requests_post (graphdb_url ex_environ) (graphdb_context None)
            (ex_serialize turtle (Some "utf-8") (graphs ex_world !! 0))
            "text/turtle" (graphdb_auth ex_environ) = OK resp ->
          status_code resp <> 204%Z ->
          r = Raise (Exception ("GraphDB says: " +:+ text resp)))
    /\ (forall e,
          ex_requests_post (graphdb_url ex_environ) (graphdb_context None)
            (ex_serialize turtle (Some "utf-8") (graphs ex_world !! 0))
            "text/turtle" (graphdb_auth ex_environ) = Raise e ->
          r = Raise e).
Proof.
  apply (_persist_to_graphdb_outcome ex_serialize ex_environ ex_requests_post
           0 None ex_world).
  discriminate.
Defined.

Lemma _persist_to_graphdb_default_endpoint_witness :
  trace (snd (_persist_to_graphdb ex_serialize ex_environ ex_requests_post 0
                (Some (Ref "http://example.com/graph/1")) ex_world))
  = trace ex_world
    ++ [HttpPost "http://localhost:7200/repositories/provwftesting/statements"
          (graphdb_context (Some (Ref "http://example.com/graph/1"))) 0
          (ex_serialize turtle (Some "utf-8") (graphs ex_world !! 0))
          "text/turtle" (EmptyString, EmptyString)].
Proof.
  apply (_persist_to_graphdb_default_endpoint ex_serialize ex_environ
           ex_requests_post 0 (Some (Ref "http://example.com/graph/1")) ex_world).
  - reflexivity.
  - reflexivity.
  - reflexivity.
  - reflexivity.
  - discriminate.
Defined.


Lemma persist_graphdb_failure_witness :
  persist ex_PROVWF ex_PWFS ex_serialize ex_environ ex_requests_post_500
    ex_make_sparql_insert_data ex_query_sop_sparql
    OnClass (Some 0) (MethodsList ["string"; "sop"; "graphdb"; "file"])
    "prov_reporter" None ex_world
  = (Raise (Exception "GraphDB says: repository is read-only"),
     mkWorld [ex_graph]
       [FileWrite "prov_reporter.ttl" turtle 0 (Some ex_graph);
        HttpPost "http://localhost:7200/repositories/provwftesting/statements"
          "null" 0 (TBytes "turtle") "text/turtle" (EmptyString, EmptyString)]).
Proof.
  apply (persist_graphdb_failure_stops_the_chain ex_PROVWF ex_PWFS ex_serialize
           ex_environ ex_requests_post_500 ex_make_sparql_insert_data
           ex_query_sop_sparql 0 ["string"; "sop"; "graphdb"; "file"]
           "prov_reporter" None ex_world
           (mkResponse 500 "repository is read-only" false)).
  - intros m Hm. unfold known_methods.
    rewrite !elem_of_cons, elem_of_nil in Hm. rewrite !elem_of_cons. tauto.
  - apply (bool_decide_unpack _). vm_compute. exact I.
  - discriminate.
  - reflexivity.
  - discriminate.
Defined.

Lemma persist_reports_first_unknown_method_witness :
  persist ex_PROVWF ex_PWFS ex_serialize ex_environ ex_requests_post
    ex_make_sparql_insert_data ex_query_sop_sparql
    OnClass (Some 0) (MethodsList (["file"] ++ "bogus" :: ["nope"]))
    "prov_reporter" None ex_world
  = (Raise (ProvWorkflowException (msg_unknown_method "bogus")), ex_world).
Proof.
  apply (persist_reports_first_unknown_method ex_PROVWF ex_PWFS ex_serialize
           ex_environ ex_requests_post ex_make_sparql_insert_data
           ex_query_sop_sparql OnClass (Some 0) ["file"] "bogus" ["nope"]
           "prov_reporter" None ex_world).
  - intros k Hk. apply list_elem_of_singleton in Hk. subst k.
    apply (bool_decide_unpack _). vm_compute. exact I.
  - apply (bool_decide_unpack _). vm_compute. exact I.
Defined.


(** * The string backend and the workflow target at concrete inputs *)

(** C6 at a serialiser that yields a [str]: the call with a target raises,
    the call without one returns the text. *)
Lemma persist_string_selected_raises_witness :
  ex_serialize trig None (graphs ex_world !! 0) = TStr "trig"
  /\ ("string" ∈ normalise_methods (MethodsStr "string")
      /\ persist ex_PROVWF ex_PWFS ex_serialize ex_environ ex_requests_post
           ex_make_sparql_insert_data ex_query_sop_sparql
           OnClass (Some 0) (MethodsStr "string") "prov_reporter"
           (Some (Str "http://example.com/graph/1")) ex_world
         = (Raise (AttributeError "'str' object has no attribute 'decode'"),
            ex_world)
      /\ persist ex_PROVWF ex_PWFS ex_serialize ex_environ ex_requests_post
           ex_make_sparql_insert_data ex_query_sop_sparql
           OnClass (Some 0) (MethodsStr "string") "prov_reporter" None ex_world
         = (OK (Some (text_of (ex_serialize turtle None (graphs ex_world !! 0)))),
            ex_world)).
Proof.
  split; [reflexivity|].
  apply (persist_string_selected_raises_on_str ex_PROVWF ex_PWFS ex_serialize
           ex_environ ex_requests_post ex_make_sparql_insert_data
           ex_query_sop_sparql 0 "prov_reporter"
           (Str "http://example.com/graph/1") ex_world "trig").
  reflexivity.
Defined.

